(** * container-use: logging setup and the environment engine

  Part 1 embeds [log.go] (package main): [parseLogLevel] and
  [setupLogger], with the process state they read and write made
  explicit.

  Part 2 models the environment package.  Its implementation files
  (environment.go, git.go, filesystem.go) are not among the sources;
  only its tests, test helpers and READMEs are.  The helpers are
  embedded from their source, the operations are modelled from the
  specification and marked as such. *)

From stdpp Require Import gmap strings list sorting.
From Stdlib Require Import ZArith Ascii String.

Local Open Scope string_scope.
Local Open Scope list_scope.
Set Warnings "-register-all".

(* ===================================================================== *)
(** * Part 1: log.go *)
(* ===================================================================== *)

(** ** log/slog levels

  [slog.Level] is an int; the four named levels are the constants of
  the Go standard library. *)
Module slog.

Definition Level : Type := Z.

Definition LevelDebug : Level := (-4)%Z.
Definition LevelInfo  : Level := 0%Z.
Definition LevelWarn  : Level := 4%Z.
Definition LevelError : Level := 8%Z.

End slog.

Module Main.

Import slog.

(** One [case] clause of a Go [switch] on a string: the tag equals one
    of the listed constants. *)
Definition switch_case (tag : string) (labels : list string) : bool :=
  existsb (String.eqb tag) labels.

(** [func parseLogLevel(levelStr string) slog.Level] *)
Definition parseLogLevel (levelStr : string) : Level :=
  if switch_case levelStr ["debug"; "DEBUG"] then LevelDebug
  else if switch_case levelStr ["info"; "INFO"] then LevelInfo
  else if switch_case levelStr ["warn"; "WARN"; "warning"; "WARNING"] then LevelWarn
  else if switch_case levelStr ["error"; "ERROR"] then LevelError
  else LevelInfo.

(** ** Writers, handlers and the process state *)

(** An [*os.File] as far as the logger uses it: the path it was
    opened on. *)
Record File := { fileName : string }.

(** [io.Writer] values built by [setupLogger]. *)
Inductive Writer :=
| Stderr
| FileWriter (f : File)
| MultiWriter (writers : list Writer).

(** The places a write ends up in: [io.MultiWriter] duplicates the
    write to each of its writers, in order. *)
Inductive Sink :=
| SinkStderr
| SinkFile (name : string).

Fixpoint sinks (w : Writer) : list Sink :=
  match w with
  | Stderr => [SinkStderr]
  | FileWriter f => [SinkFile (fileName f)]
  | MultiWriter ws => (fix go (l : list Writer) : list Sink :=
                         match l with
                         | [] => []
                         | x :: r => sinks x ++ go r
                         end) ws
  end.

(** [slog.New(slog.NewTextHandler(w, &slog.HandlerOptions{Level: l}))] *)
Record Logger := { handlerWriter : Writer; handlerLevel : Level }.

(** The writes a logger performs for one record: none below the
    handler's level, otherwise one per sink. *)
Definition emit (l : Logger) (lvl : Level) (line : string) : list (Sink * string) :=
  if (handlerLevel l <=? lvl)%Z
  then map (fun s => (s, line)) (sinks (handlerWriter l))
  else [].

(** What [setupLogger] reads and writes.  [environ] is the process
    environment; [openError path] is what
    [os.OpenFile(path, O_CREATE|O_WRONLY|O_APPEND, 0644)] answers for
    each path ([None]: the file opens) when [setupLogger] is called; the
    last three fields are the package variables [logWriter] and
    [globalLog] and slog's default logger.  The answers belong to the
    time of the call: opening with [O_CREATE] changes the file system
    itself (the file it makes has the permissions the umask leaves), so
    a call made later is given the answers of its own time, see
    [later]. *)
Record Process := {
  environ     : gmap string string;
  openError   : string -> option string;
  logWriter   : option Writer;
  globalLog   : option File;
  slogDefault : Logger;
}.

(** [os.Getenv]: the value, or the empty string when the variable is
    not present. *)
Definition Getenv (p : Process) (key : string) : string :=
  default "" (environ p !! key).

(** [os.OpenFile(name, os.O_CREATE|os.O_WRONLY|os.O_APPEND, 0644)] *)
Definition OpenFile (p : Process) (name : string) : File + string :=
  match openError p name with
  | None => inl {| fileName := name |}
  | Some err => inr err
  end.

(** The tail of [setupLogger], after the writers are collected. *)
Definition installLogger (p : Process) (writers : list Writer) : Process :=
  let logLevel := parseLogLevel (Getenv p "CU_LOG_LEVEL") in
  let w := MultiWriter writers in
  {| environ := environ p;
     openError := openError p;
     logWriter := Some w;
     globalLog := globalLog p;
     slogDefault := {| handlerWriter := w; handlerLevel := logLevel |} |}.

(** [func setupLogger() error]: the new process state and the returned
    error ([None] is Go's nil). *)
Definition setupLogger (p : Process) : Process * option string :=
  let writers := [Stderr] in
  let logFile := Getenv p "CU_STDERR_FILE" in
  if negb (String.eqb logFile "") then
    match OpenFile p logFile with
    | inr err =>
        (p, Some ("failed to open log file " +:+ logFile +:+ ": " +:+ err))
    | inl file =>
        let p1 := {| environ := environ p;
                     openError := openError p;
                     logWriter := logWriter p;
                     globalLog := Some file;
                     slogDefault := slogDefault p |} in
        (installLogger p1 (writers ++ [FileWriter file]), None)
    end
  else (installLogger p writers, None).

(** ** Concrete processes *)

Definition quietProcess : Process :=
  {| environ := ∅;
     openError := fun _ => None;
     logWriter := None;
     globalLog := None;
     slogDefault := {| handlerWriter := FileWriter {| fileName := "/dev/null" |};
                       handlerLevel := LevelError |} |}.

Definition withEnv (k v : string) (p : Process) : Process :=
  {| environ := <[k := v]> (environ p);
     openError := openError p;
     logWriter := logWriter p;
     globalLog := globalLog p;
     slogDefault := slogDefault p |}.

Definition failingOpen (bad err : string) (p : Process) : Process :=
  {| environ := environ p;
     openError := fun name => if String.eqb name bad then Some err else openError p name;
     logWriter := logWriter p;
     globalLog := globalLog p;
     slogDefault := slogDefault p |}.

(** The process at a later time, when opening a file answers
    [answers]; everything else is as [p] left it. *)
Definition later (answers : string -> option string) (p : Process) : Process :=
  {| environ := environ p;
     openError := answers;
     logWriter := logWriter p;
     globalLog := globalLog p;
     slogDefault := slogDefault p |}.

Definition unopenable : Process :=
  failingOpen "/nonexistent/cu.log" "no such file or directory"
    (withEnv "CU_STDERR_FILE" "/nonexistent/cu.log" quietProcess).

End Main.

(* ===================================================================== *)
(** * Part 2: package environment *)
(* ===================================================================== *)

Module environment.

(** ** Go string helpers used by the tests and the model *)

(** [strings.HasPrefix] *)
Definition HasPrefix (s prefix : string) : bool := String.prefix prefix s.

(** [strings.HasSuffix] *)
Definition HasSuffix (s suffix : string) : bool :=
  String.prefix (String.rev suffix) (String.rev s).

(** [strings.Contains] *)
Fixpoint Contains (s substr : string) : bool :=
  if String.prefix substr s then true
  else match s with
       | EmptyString => false
       | String _ rest => Contains rest substr
       end.

(** [strings.Split] on a one-byte separator. *)
Fixpoint Split (sep : ascii) (s : string) : list string :=
  match s with
  | EmptyString => [EmptyString]
  | String c rest =>
      if Ascii.eqb c sep then EmptyString :: Split sep rest
      else match Split sep rest with
           | [] => [String c EmptyString]
           | w :: ws => String c w :: ws
           end
  end.

Definition nonEmpty (s : string) : bool := negb (String.eqb s "").

(** The components of a slash-separated path. *)
Definition components (path : string) : list string :=
  List.filter nonEmpty (Split "/"%char path).

Definition Join (sep : string) (l : list string) : string := String.concat sep l.

(** [filepath.Base] *)
Definition Base (path : string) : string := List.last (components path) ".".

(** The directories [os.MkdirAll] creates for the directory with the
    given components: every prefix of it. *)
Fixpoint dirPrefixes (acc : string) (comps : list string) : list string :=
  match comps with
  | [] => []
  | c :: rest =>
      let d := if String.eqb acc "" then c else acc +:+ "/" +:+ c in
      d :: dirPrefixes d rest
  end.

(** ** A directory on disk

    Regular files by their path relative to the directory, and the
    directories below it (kept apart: a directory may be empty). *)
Record Dir := {
  files : gmap string string;
  dirs  : gset string;
}.

Definition emptyDir : Dir := {| files := ∅; dirs := ∅ |}.

(** [filepath.Dir] of a relative path, as components. *)
Definition parentOf (path : string) : string :=
  Join "/" (removelast (components path)).

(** A file as the engine leaves it in a directory (a tree checked out,
    the work directory of a container copied back): the file under its
    path, and the directories above it. *)
Definition putFile (path content : string) (d : Dir) : Dir :=
  {| files := <[path := content]> (files d);
     dirs := dirs d ∪ list_to_set (dirPrefixes "" (components (parentOf path))) |}.

(** ** Test helpers (TestEnv), on the repository directory

    The helpers address a file by [filepath.Join(te.repoDir, path)],
    which cleans the joined path: empty and [.] elements vanish, and
    [..] removes the element before it.  [Clean path] is the cleaned
    path by its elements below the repository directory; there is none
    when a [..] leads out of that directory. *)
Fixpoint cleanFrom (stack elems : list string) : option (list string) :=
  match elems with
  | [] => Some (rev stack)
  | e :: rest =>
      if String.eqb e "." then cleanFrom stack rest
      else if String.eqb e ".." then
        match stack with
        | [] => None
        | _ :: above => cleanFrom above rest
        end
      else cleanFrom (e :: stack) rest
  end.

Definition Clean (path : string) : option (list string) :=
  cleanFrom [] (components path).

(** How a call of a helper ends: it returns, with the repository
    directory as it then is; or [require.NoError] stops the test; or the
    path leads out of the repository directory, where this model of one
    directory does not follow it. *)
Inductive Outcome :=
| Done (repoDir : Dir)
| Aborted
| Elsewhere.

(** [os.MkdirAll(dir, 0755)] for the directory with the given elements
    below the repository directory: an error when the directory or one
    above it is a regular file, otherwise every missing one is made. *)
Definition MkdirAll (elems : list string) (d : Dir) : option Dir :=
  if existsb (fun p => bool_decide (is_Some (files d !! p))) (dirPrefixes "" elems)
  then None
  else Some {| files := files d;
               dirs := dirs d ∪ list_to_set (dirPrefixes "" elems) |}.

(** [os.WriteFile(name, data, 0644)] for the file with the given
    elements, whose directory exists: an error when the name is a
    directory (the repository directory itself when there is no
    element), otherwise the file is created or truncated and written. *)
Definition osWriteFile (elems : list string) (data : string) (d : Dir) : option Dir :=
  match elems with
  | [] => None
  | _ :: _ =>
      if bool_decide (Join "/" elems ∈ dirs d) then None
      else Some {| files := <[Join "/" elems := data]> (files d); dirs := dirs d |}
  end.

(** [func (te *TestEnv) WriteFile(path, content string)].  [granted]
    says whether the operating system grants the two calls what they
    ask for (permissions, which the umask decides for what earlier
    calls made; name lengths; space): the model of the directory holds
    files and directories only. *)
Definition WriteFile (granted : bool) (path content : string) (repoDir : Dir) : Outcome :=
  match Clean path with
  | None => Elsewhere
  | Some fullPath =>
      if negb granted then Aborted else
      let dir := removelast fullPath in
      match MkdirAll dir repoDir with
      | None => Aborted
      | Some d =>
          match osWriteFile fullPath content d with
          | None => Aborted
          | Some d' => Done d'
          end
      end
  end.

(** The [content] slice of [WriteBinaryFile]: [content[i] = byte(i % 256)]. *)
Definition binaryContent (size : nat) : string :=
  string_of_list_ascii (List.map (fun i => ascii_of_nat (i mod 256)) (seq 0 size)).

(** [func (te *TestEnv) WriteBinaryFile(path string, size int)] *)
Definition WriteBinaryFile (granted : bool) (path : string) (size : nat) (repoDir : Dir)
  : Outcome :=
  let content := binaryContent size in
  match Clean path with
  | None => Elsewhere
  | Some fullPath =>
      if negb granted then Aborted else
      let dir := removelast fullPath in
      match MkdirAll dir repoDir with
      | None => Aborted
      | Some d =>
          match osWriteFile fullPath content d with
          | None => Aborted
          | Some d' => Done d'
          end
      end
  end.

(** [func (te *TestEnv) CreateDir(path string)] *)
Definition CreateDir (granted : bool) (path : string) (repoDir : Dir) : Outcome :=
  match Clean path with
  | None => Elsewhere
  | Some fullPath =>
      if negb granted then Aborted else
      match MkdirAll fullPath repoDir with
      | None => Aborted
      | Some d => Done d
      end
  end.

(** The helpers of a test's setup, one after the other: the first that
    does not return ends it. *)
Fixpoint setup (script : list (Dir -> Outcome)) (repoDir : Dir) : Outcome :=
  match script with
  | [] => Done repoDir
  | step :: rest =>
      match step repoDir with
      | Done d => setup rest d
      | stopped => stopped
      end
  end.

(** ** Error kinds (specification, section 7) *)
Inductive Error :=
| GitError (stderr : string)
| ContainerError (exitCode : Z) (output : string)
| IOError
| NotFound
| Conflict
| Canceled
| InvalidArgument.

Inductive Result (A : Type) :=
| Ok (a : A)
| Err (e : Error).
Arguments Ok {A} a.
Arguments Err {A} e.

#[global] Instance Result_ret : MRet Result := fun A a => Ok a.
#[global] Instance Result_bind : MBind Result := fun A B k r =>
  match r with
  | Ok a => k a
  | Err e => Err e
  end.

Definition isOk {A} (r : Result A) : bool :=
  match r with Ok _ => true | Err _ => false end.

(** ** Git, as far as the environment package drives it *)

(** A commit on a branch: message ([subject], blank line, [body]), the
    tree it records, and the notes attached to it on the two notes refs. *)
Record Commit := {
  subject    : string;
  body       : string;
  tree       : gmap string string;
  logNotes   : list string;
  stateNotes : list string;
}.

(** A working directory with its index and the history of the branch
    that is checked out, newest commit first. *)
Record GitDir := {
  work    : Dir;
  index   : gmap string string;
  commits : list Commit;
}.

Definition headTree (g : GitDir) : gmap string string :=
  match commits g with
  | c :: _ => tree c
  | [] => ∅
  end.

(** Git's content sniff: a NUL byte within the first 8 KiB. *)
Fixpoint hasNul (n : nat) (s : string) : bool :=
  match n, s with
  | S n', String c rest => if Ascii.eqb c Ascii.zero then true else hasNul n' rest
  | _, _ => false
  end.

Definition isBinary (content : string) : bool := hasNul (8 * 1024) content.

(** One line of a .gitignore, in the three forms the test projects use:
    [name/] (a directory of that name), [*suffix] and [name].  Git's
    other forms (negation, anchoring, comments, further wildcards,
    ignore files below the root) occur in none of them; what is proved
    of staging for every worktree takes git's decision as a parameter
    and does not rest on this function. *)
Definition ignoredBy (pattern path : string) : bool :=
  let comps := components path in
  if HasSuffix pattern "/" then
    existsb (fun c => String.eqb (c +:+ "/") pattern) (removelast comps)
  else if HasPrefix pattern "*" then
    existsb (fun c => HasSuffix c (String.substring 1 (String.length pattern - 1) pattern)) comps
  else existsb (String.eqb pattern) comps.

Definition gitignored (w : Dir) (path : string) : bool :=
  existsb (fun pat => ignoredBy pat path)
          (List.filter nonEmpty (Split "010"%char (default "" (files w !! ".gitignore")))).

(** The paths git looks at, in byte order. *)
Definition statusPaths (g : GitDir) : list string :=
  merge_sort String.le
    (elements (dom (headTree g) ∪ dom (index g) ∪ dom (files (work g)))).

(** An untracked path is reported as its outermost directory that holds
    no tracked file, when there is one. *)
Definition untrackedEntry (idx : gmap string string) (path : string) : string :=
  let tracked d := existsb (fun k => HasPrefix k (d +:+ "/")) (elements (dom idx)) in
  match List.filter (fun d => negb (tracked d))
                    (dirPrefixes "" (removelast (components path))) with
  | d :: _ => d +:+ "/"
  | [] => path
  end.

(** The entries of [git status --porcelain]: two status letters and a
    path each. *)
Definition statusOf (g : GitDir) (path : string) : list (string * string) :=
  let h := headTree g !! path in
  let i := index g !! path in
  let w := files (work g) !! path in
  let x := match h, i with
           | None, Some _ => "A"
           | Some a, Some b => if String.eqb a b then " " else "M"
           | Some _, None => "D"
           | None, None => " "
           end in
  let y := match i, w with
           | Some a, Some b => if String.eqb a b then " " else "M"
           | Some _, None => "D"
           | None, _ => " "
           end in
  (if String.eqb (x +:+ y) "  " then [] else [(x +:+ y, path)])
  ++ match i, w with
     | None, Some _ =>
         if gitignored (work g) path then [] else [("??", untrackedEntry (index g) path)]
     | _, _ => []
     end.

Fixpoint dedup (l : list (string * string)) : list (string * string) :=
  match l with
  | [] => []
  | e :: rest => if bool_decide (e ∈ rest) then dedup rest else e :: dedup rest
  end.

(** Changes of tracked paths first, untracked paths after them. *)
Definition statusEntries (g : GitDir) : list (string * string) :=
  let all := dedup (List.concat (List.map (statusOf g) (statusPaths g))) in
  let untracked e := String.eqb (fst e) "??" in
  List.filter (fun e => negb (untracked e)) all ++ List.filter untracked all.

(** [runGitCommand(ctx, dir, "status", "--porcelain")] *)
Definition gitStatusPorcelain (g : GitDir) : string :=
  String.concat ""
    (List.map (fun e => fst e +:+ " " +:+ snd e +:+ String "010"%char "") (statusEntries g)).

(** [runGitCommand(ctx, dir, "add", path)] for a file of the working
    directory with the given content. *)
Definition gitAdd (path content : string) (g : GitDir) : GitDir :=
  {| work := work g; index := <[path := content]> (index g); commits := commits g |}.

(** [runGitCommand(ctx, dir, "add", ".")]: every file that is not
    ignored, and the removal of every tracked file that is gone. *)
Definition gitAddAll (g : GitDir) : GitDir :=
  {| work := work g;
     index := filter (fun kv => gitignored (work g) (fst kv) = false ∨ is_Some (index g !! fst kv))
                     (files (work g));
     commits := commits g |}.

(** [runGitCommand(ctx, dir, "commit", "-m", msg)]: git refuses (exit
    status 1) when the index equals the tree of HEAD, and says so after
    listing what is left unstaged and untracked. *)
Definition gitCommit (name explanation : string) (g : GitDir) : Result GitDir :=
  if bool_decide (index g = headTree g)
  then Err (GitError (gitStatusPorcelain g +:+ "nothing added to commit"))
  else Ok {| work := work g;
             index := index g;
             commits := {| subject := name; body := explanation; tree := index g;
                           logNotes := []; stateNotes := [] |} :: commits g |}.

(** [runGitCommand(ctx, dir, "log", "--oneline")] without the hash
    column: one subject per line, newest first. *)
Definition gitLogOneline (g : list Commit) : string :=
  String.concat "" (List.map (fun c => subject c +:+ String "010"%char "") g).

(** ** Selective staging and committing *)

(** The directories whose content the staging code skips whatever it
    is: the third scenario of TestSelectiveFileStaging has no .gitignore
    and expects the text files [node_modules/lodash/index.js] and
    [build/config.json] to stay unstaged.  No test forces a further
    name. *)
Definition conventionalDirs : list string := ["node_modules"; "build"].

Definition underConventionalDir (path : string) : bool :=
  existsb (fun c => bool_decide (c ∈ conventionalDirs)) (removelast (components path)).

(** Modelled from the spec: the classification of one regular file by
    the absent staging code (section 4.1), given what git ignores: not
    binary, outside the directories above, and not ignored.  An empty
    file is not accepted: the note in TestSelectiveFileStaging
    (empty_file_edge_case) records that the code leaves it unstaged. *)
Definition acceptedBy (ignored : string -> bool) (path content : string) : bool :=
  nonEmpty content && negb (isBinary content) && negb (underConventionalDir path)
  && negb (ignored path).

Definition accepted (w : Dir) (path content : string) : bool :=
  acceptedBy (gitignored w) path content.

(** Modelled from the spec: [addNonBinaryFiles] of git.go, which is not
    among the sources.  Section 4.1: the staging routine walks the
    worktree, classifies each regular file, and issues [git add <path>]
    only for accepted files; files git detects as binary are skipped,
    ignored paths are left to git, and empty directories are never
    seen.  [ignored] is git's decision on a path.  Git never fails
    here, so the error result is left out. *)
Definition addNonBinaryFilesBy (ignored : string -> bool) (g : GitDir) : GitDir :=
  map_fold (fun path content acc =>
              if acceptedBy ignored path content then gitAdd path content acc else acc)
           g (files (work g)).

(** The staging routine on a worktree whose ignore rules are those of
    the .gitignore at its root. *)
Definition addNonBinaryFiles (g : GitDir) : GitDir :=
  addNonBinaryFilesBy (gitignored (work g)) g.

(** Modelled from the spec: [commitWorktreeChanges] of git.go
    ([commitIfDirty] in section 4.1), which is not among the sources.
    After staging, query [git status --porcelain]; if it is empty,
    return without a commit and without an error; otherwise commit with
    the message [<Name>\n\n<Explanation>].  A non-zero exit of git fails
    the operation with a git error. *)
Definition commitWorktreeChanges (name explanation : string) (g : GitDir) : Result GitDir :=
  let g1 := addNonBinaryFiles g in
  if String.eqb (gitStatusPorcelain g1) ""
  then Ok g1
  else gitCommit name explanation g1.

(** ** The container engine

    A container: the image it was started from, its files by absolute
    path, and the [KEY=VALUE] variables exported in it. *)
Record Container := {
  image  : string;
  cfiles : gmap string string;
  cenv   : list string;
}.

Definition Workdir : string := "/workdir".

(** A path given to a container operation: absolute as it is, relative
    below [/workdir]. *)
Definition inContainer (path : string) : string :=
  if HasPrefix path "/" then path else Workdir +:+ "/" +:+ path.

(** The part of a container path below [/workdir], if it lies there. *)
Definition belowWorkdir (cpath : string) : option string :=
  if HasPrefix cpath (Workdir +:+ "/")
  then Some (String.substring 9 (String.length cpath - 9) cpath)
  else None.

Definition traverses (path : string) : bool :=
  existsb (String.eqb "..") (components path).

(** The value of a variable among exported [KEY=VALUE] strings; a later
    entry wins, an unset variable reads as empty. *)
Definition lookupEnv (env : list string) (name : string) : string :=
  match List.find (fun kv => HasPrefix kv (name +:+ "=")) (List.rev env) with
  | Some kv => String.substring (S (String.length name))
                 (String.length kv - S (String.length name)) kv
  | None => ""
  end.

(** Parameter expansion of one word: the text before the first [$],
    then the value of the variable named after it. *)
Definition expand (env : list string) (word : string) : string :=
  match Split "$"%char word with
  | pre :: name :: _ => pre +:+ lookupEnv env name
  | _ => word
  end.

(** Modelled from the spec: [Exec] of section 4.3, the container
    runtime's shell, for the commands the scenarios run: [echo words],
    [cat file] and [sh file]; the captured output and the exit status.
    [fuel] bounds the nesting of [sh file]. *)
Fixpoint Exec (fuel : nat) (c : Container) (command : string) : string * Z :=
  match fuel with
  | O => ("", 1%Z)
  | S fuel' =>
      let nl := String "010"%char "" in
      let runLine (line : string) : string * Z :=
        match String.words line with
        | [] => ("", 0%Z)
        | cmd :: args =>
            if String.eqb cmd "echo" then
              (Join " " (List.map (expand (cenv c)) args) +:+ nl, 0%Z)
            else match args with
                 | [f] =>
                     if String.eqb cmd "cat" then
                       match cfiles c !! inContainer f with
                       | Some content => (content, 0%Z)
                       | None => ("cat: " +:+ f +:+ ": No such file or directory" +:+ nl, 1%Z)
                       end
                     else if String.eqb cmd "sh" then
                       match cfiles c !! inContainer f with
                       | Some script => Exec fuel' c script
                       | None => ("sh: 0: cannot open " +:+ f +:+ ": No such file" +:+ nl, 2%Z)
                       end
                     else ("sh: 1: " +:+ cmd +:+ ": not found" +:+ nl, 127%Z)
                 | _ => ("sh: 1: " +:+ cmd +:+ ": not found" +:+ nl, 127%Z)
                 end
        end in
      List.fold_left (fun acc line => let r := runLine line in (fst acc +:+ fst r, snd r))
                     (List.filter nonEmpty (Split "010"%char command)) ("", 0%Z)
  end.

Definition execFuel : nat := 8.

(** ** The host: directories, repositories, and the engine's memo *)

(** A repository: the branch that HEAD names, and each branch's
    history, newest commit first. *)
Record Repo := {
  HEAD     : string;
  branches : gmap string (list Commit);
}.

(** What the environments of one process share: the configuration
    directory, the directories on the host by absolute path (worktrees,
    upload sources), the repositories by path (source repositories and
    mirrors), and the host directories the container engine has already
    loaded in this session. *)
Record World := {
  configDir   : string;
  host        : gmap string Dir;
  repos       : gmap string Repo;
  hostDirMemo : gmap string Dir;
}.

Definition setHost (path : string) (d : Dir) (w : World) : World :=
  {| configDir := configDir w; host := <[path := d]> (host w);
     repos := repos w; hostDirMemo := hostDirMemo w |}.

Definition branchOf (w : World) (repo branch : string) : list Commit :=
  default [] (r ← repos w !! repo; branches r !! branch).

Definition setBranch (repo branch : string) (h : list Commit) (w : World) : World :=
  match repos w !! repo with
  | Some r =>
      {| configDir := configDir w; host := host w;
         repos := <[repo := {| HEAD := HEAD r; branches := <[branch := h]> (branches r) |}]> (repos w);
         hostDirMemo := hostDirMemo w |}
  | None => w
  end.

(** Modelled from the spec: the engine's host-directory reference, as
    the code under test has it.  Section 9 (Caching bug): the staleness
    comes from memoized host-directory references inside the container
    engine SDK; README, Known Issues: after [Update] the container uses
    the cached initial worktree state, and [Upload] may upload stale
    versions of files.  The first load of a path reads the disk and is
    remembered; a later load of the same path answers from the memo. *)
Definition hostDirectory (path : string) (w : World) : Result (Dir * World) :=
  match hostDirMemo w !! path with
  | Some snapshot => Ok (snapshot, w)
  | None =>
      match host w !! path with
      | Some d =>
          Ok (d, {| configDir := configDir w; host := host w; repos := repos w;
                    hostDirMemo := <[path := d]> (hostDirMemo w) |})
      | None => Err IOError
      end
  end.

(** The files of a directory placed below a container path. *)
Definition mountAt (dest : string) (d : Dir) : gmap string string :=
  kmap (String.app (dest +:+ "/")) (files d).

(** Setup commands run in order; a non-zero exit fails the build. *)
Fixpoint runSetup (c : Container) (cmds : list string) : Result Container :=
  match cmds with
  | [] => Ok c
  | cmd :: rest =>
      let r := Exec execFuel c cmd in
      if (snd r =? 0)%Z then runSetup c rest
      else Err (ContainerError (snd r) (fst r))
  end.

(** Modelled from the spec: [Build] and [Start] of section 4.3: an
    image from the base, each setup command in order, the environment
    set, the worktree contents copied to [/workdir]. *)
Definition Build (baseImage : string) (setupCmds env : list string)
    (worktreeDir : string) (w : World) : Result (Container * World) :=
  c0 ← runSetup {| image := baseImage; cfiles := ∅; cenv := [] |} setupCmds;
  '(snapshot, w1) ← hostDirectory worktreeDir w;
  Ok ({| image := baseImage;
         cfiles := mountAt Workdir snapshot ∪ cfiles c0;
         cenv := env |}, w1).

(** Modelled from the spec: [Export] of section 4.3: copy [/workdir]
    back to a host directory. *)
Definition exportWorkdir (c : Container) (d : Dir) : Dir :=
  map_fold (fun cpath content acc =>
              match belowWorkdir cpath with
              | Some rel => putFile rel content acc
              | None => acc
              end) d (cfiles c).

(** ** Text mode of a read (section 4.3: strips trailing CR, enforces
    valid UTF-8) *)

(** Well-formed UTF-8, byte by byte: [need] continuation bytes are
    still due, the next of them within [lo..hi]. *)
Fixpoint utf8From (need lo hi : nat) (bs : list nat) : bool :=
  match bs with
  | [] => Nat.eqb need 0
  | b :: rest =>
      match need with
      | S need' => (lo <=? b)%nat && (b <=? hi)%nat && utf8From need' 128 191 rest
      | O =>
          if (b <? 128)%nat then utf8From 0 128 191 rest
          else if (194 <=? b)%nat && (b <=? 223)%nat then utf8From 1 128 191 rest
          else if (b =? 224)%nat then utf8From 2 160 191 rest
          else if (b =? 237)%nat then utf8From 2 128 159 rest
          else if (225 <=? b)%nat && (b <=? 239)%nat then utf8From 2 128 191 rest
          else if (b =? 240)%nat then utf8From 3 144 191 rest
          else if (241 <=? b)%nat && (b <=? 243)%nat then utf8From 3 128 191 rest
          else if (b =? 244)%nat then utf8From 3 128 143 rest
          else false
      end
  end.

Definition validUTF8 (s : string) : bool :=
  utf8From 0 128 191 (List.map nat_of_ascii (list_ascii_of_string s)).

(** A carriage return is dropped where it ends a line. *)
Fixpoint stripCR (s : string) : string :=
  match s with
  | EmptyString => EmptyString
  | String c rest =>
      if Ascii.eqb c "013"%char then
        match rest with
        | EmptyString => EmptyString
        | String d _ => if Ascii.eqb d "010"%char then stripCR rest else String c (stripCR rest)
        end
      else String c (stripCR rest)
  end.

(** ** Environments (specification, section 3) *)

Record HistoryEntry := {
  entryName        : string;
  entryExplanation : string;
  entryCommand     : option string;
  entryOutput      : option string;
}.

Record Environment := {
  ID            : string;
  Name          : string;
  Source        : string;
  Worktree      : string;
  BaseImage     : string;
  SetupCommands : list string;
  Env           : list string;
  Secrets       : list string;
  History       : list HistoryEntry;
  container     : Container;
}.

Definition defaultBaseImage : string := "ubuntu:latest".

(** Modelled from the spec: the path of [GetWorktreePath] of git.go,
    which is not among the sources.  Section 4.2, path generation:
    [<config_dir>/worktrees/<basename(Source)>/<ID>]; an environment
    without a source (TestWorktreePaths) has no project component. *)
Definition worktreePath (config source id : string) : string :=
  Join "/" (List.filter nonEmpty
              [config; "worktrees"; if nonEmpty source then Base source else ""; id]).

(** Modelled from the spec: [GetWorktreePath] of git.go, with the
    configuration directory read from the world. *)
Definition GetWorktreePath (e : Environment) (w : World) : string :=
  worktreePath (configDir w) (Source e) (ID e).

(** Modelled from the spec: the mirror of a source repository (section
    4.2), [<config_dir>/repos/<project>]. *)
Definition mirrorPath (w : World) (source : string) : string :=
  Join "/" [configDir w; "repos"; Base source].

Definition treeOf (h : list Commit) : gmap string string :=
  match h with
  | c :: _ => tree c
  | [] => ∅
  end.

(** [git worktree add]: the files of a tree written out. *)
Definition checkout (t : gmap string string) : Dir :=
  map_fold putFile emptyDir t.

(** The worktree of an environment as git sees it.  Between operations
    the index is the tree of the branch tip. *)
Definition gitDirOf (w : World) (e : Environment) : Result GitDir :=
  match host w !! Worktree e with
  | Some d =>
      let h := branchOf w (mirrorPath w (Source e)) (ID e) in
      Ok {| work := d; index := treeOf h; commits := h |}
  | None => Err (GitError "not a working tree")
  end.

(** The branch of an environment moves in the mirror and in the source
    repository together. *)
Definition setEnvBranch (e : Environment) (h : list Commit) (w : World) : World :=
  setBranch (Source e) (ID e) h (setBranch (mirrorPath w (Source e)) (ID e) h w).

(** Modelled from the spec: the commit step the operations of section
    4.4 share: stage and commit the worktree of an environment; the
    answer says whether a commit was made. *)
Definition commitEnvironment (name explanation : string) (e : Environment) (w : World)
  : Result (bool * World) :=
  g ← gitDirOf w e;
  g' ← commitWorktreeChanges name explanation g;
  Ok (negb (Nat.eqb (List.length (commits g')) (List.length (commits g))),
      setEnvBranch e (commits g') w).

(** Modelled from the spec: [notesAppend] of section 4.1, [git notes
    append] on the tip of the environment's branch. *)
Definition appendNote (onState : bool) (payload : string) (e : Environment) (w : World) : World :=
  match branchOf w (mirrorPath w (Source e)) (ID e) with
  | c :: rest =>
      let c' := {| subject := subject c; body := body c; tree := tree c;
                   logNotes := if onState then logNotes c else logNotes c ++ [payload];
                   stateNotes := if onState then stateNotes c ++ [payload] else stateNotes c |} in
      setEnvBranch e (c' :: rest) w
  | [] => w
  end.

(** Modelled from the spec: the payload of the state note (section
    4.1): the configuration of an environment, field by field. *)
Definition serializeState (e : Environment) : string :=
  let nl := String "010"%char "" in
  "base_image: " +:+ BaseImage e +:+ nl +:+
  "setup_commands: " +:+ Join "; " (SetupCommands e) +:+ nl +:+
  "env: " +:+ Join " " (Env e) +:+ nl.

Definition withHistory (h : HistoryEntry) (c : Container) (e : Environment) : Environment :=
  {| ID := ID e; Name := Name e; Source := Source e; Worktree := Worktree e;
     BaseImage := BaseImage e; SetupCommands := SetupCommands e; Env := Env e;
     Secrets := Secrets e; History := History e ++ [h]; container := c |}.

(** Modelled from the spec: [Create] of environment.go (section 4.4),
    which is not among the sources.  [draws] are the two-word suffixes
    the random generator offers, in order; a suffix whose ID is already
    a branch of the mirror is re-rolled.  The name is used as the slug
    as it is. *)
Definition Create (explanation sourcePath name : string) (draws : list string) (w : World)
  : Result (Environment * World) :=
  if String.eqb name "" then Err InvalidArgument else
  match repos w !! sourcePath with
  | None => Err (GitError "not a git repository")
  | Some src =>
      let mpath := mirrorPath w sourcePath in
      let mrepo := default {| HEAD := HEAD src; branches := branches src |} (repos w !! mpath) in
      let mb := branches mrepo ∪ branches src in
      let sb := branches src ∪ branches mrepo in
      match List.find (fun s => bool_decide (mb !! (name +:+ "/" +:+ s) = None)) draws with
      | None => Err Conflict
      | Some suffix =>
          let id := name +:+ "/" +:+ suffix in
          let start := default [] (branches src !! HEAD src) in
          let wt := worktreePath (configDir w) sourcePath id in
          match host w !! wt with
          | Some _ => Err (GitError "worktree path already exists")
          | None =>
              let w1 := {| configDir := configDir w;
                           host := <[wt := checkout (treeOf start)]> (host w);
                           repos := <[sourcePath := {| HEAD := HEAD src; branches := <[id := start]> sb |}]>
                                      (<[mpath := {| HEAD := HEAD mrepo; branches := <[id := start]> mb |}]>
                                         (repos w));
                           hostDirMemo := hostDirMemo w |} in
              '(c, w2) ← Build defaultBaseImage [] [] wt w1;
              let e := {| ID := id; Name := name; Source := sourcePath; Worktree := wt;
                          BaseImage := defaultBaseImage; SetupCommands := []; Env := [];
                          Secrets := []; History := []; container := c |} in
              '(_, w3) ← commitEnvironment ("Create environment " +:+ name) explanation e w2;
              Ok (e, appendNote true (serializeState e) e w3)
          end
      end
  end.

(** Modelled from the spec: [FileRead] of filesystem.go (sections 4.3
    and 6), which is not among the sources.  A missing path is
    [NotFound]; [offset] and [limit] count bytes, a zero [limit] reads to
    the end; text mode enforces UTF-8 and strips trailing CR. *)
Definition FileRead (targetFile : string) (textMode : bool) (offset limit : nat)
    (e : Environment) : Result string :=
  if traverses targetFile then Err InvalidArgument else
  match cfiles (container e) !! inContainer targetFile with
  | None => Err NotFound
  | Some content =>
      let n := String.length content in
      let bytes := String.substring offset (if Nat.eqb limit 0 then n - offset else limit) content in
      if textMode
      then (if validUTF8 bytes then Ok (stripCR bytes) else Err InvalidArgument)
      else Ok bytes
  end.

(** Modelled from the spec: [FileWrite] of filesystem.go (section 4.4),
    which is not among the sources: write to the container, mirror the
    write to the worktree, stage and commit as [Write <path>], then
    record the history entry. *)
Definition FileWrite (explanation targetFile contents : string) (e : Environment) (w : World)
  : Result (Environment * World) :=
  if traverses targetFile then Err InvalidArgument else
  let cpath := inContainer targetFile in
  let c := {| image := image (container e);
              cfiles := <[cpath := contents]> (cfiles (container e));
              cenv := cenv (container e) |} in
  match host w !! Worktree e with
  | None => Err IOError
  | Some d =>
      let w1 := match belowWorkdir cpath with
                | Some rel => setHost (Worktree e) (putFile rel contents d) w
                | None => w
                end in
      '(_, w2) ← commitEnvironment ("Write " +:+ targetFile) explanation e w1;
      Ok (withHistory {| entryName := "Write " +:+ targetFile; entryExplanation := explanation;
                         entryCommand := None; entryOutput := None |} c e, w2)
  end.

Definition withContainer (c : Container) (e : Environment) : Environment :=
  {| ID := ID e; Name := Name e; Source := Source e; Worktree := Worktree e;
     BaseImage := BaseImage e; SetupCommands := SetupCommands e; Env := Env e;
     Secrets := Secrets e; History := History e; container := c |}.

(** The log note of section 4.1. *)
Definition logPayload (command explanation output : string) : string :=
  let nl := String "010"%char "" in
  "COMMAND: " +:+ command +:+ nl +:+ "EXPLANATION: " +:+ explanation +:+ nl +:+
  "OUTPUT:" +:+ nl +:+ output.

(** Modelled from the spec: [Run] of environment.go (section 4.4),
    which is not among the sources: exec in the container, export
    [/workdir] to the worktree, stage and commit as [Run <command>], note
    the transcript on the commit, record the history entry.  The
    captured output is returned also when the operation fails. *)
Definition Run (explanation command shell : string) (useEntrypoint : bool)
    (e : Environment) (w : World) : string * Result (Environment * World) :=
  let r := Exec execFuel (container e) command in
  let output := fst r in
  if negb (snd r =? 0)%Z then (output, Err (ContainerError (snd r) output)) else
  (output,
   match host w !! Worktree e with
   | None => Err IOError
   | Some d =>
       let w1 := setHost (Worktree e) (exportWorkdir (container e) d) w in
       '(committed, w2) ← commitEnvironment ("Run " +:+ command) explanation e w1;
       let w3 := if committed : bool
                 then appendNote false (logPayload command explanation output) e w2
                 else w2 in
       Ok (withHistory {| entryName := "Run " +:+ command; entryExplanation := explanation;
                          entryCommand := Some command; entryOutput := Some output |}
                       (container e) e, w3)
   end).

(** Modelled from the spec: [SetEnv] of environment.go (section 4.4),
    which is not among the sources: replace [Env], export it in the
    running container, commit as [Set env], write the state note. *)
Definition SetEnv (explanation : string) (envs : list string) (e : Environment) (w : World)
  : Result (Environment * World) :=
  let c := {| image := image (container e); cfiles := cfiles (container e); cenv := envs |} in
  let e1 := {| ID := ID e; Name := Name e; Source := Source e; Worktree := Worktree e;
               BaseImage := BaseImage e; SetupCommands := SetupCommands e; Env := envs;
               Secrets := Secrets e; History := History e; container := c |} in
  '(_, w1) ← commitEnvironment "Set env" explanation e1 w;
  Ok (withHistory {| entryName := "Set env"; entryExplanation := explanation;
                     entryCommand := None; entryOutput := None |} c e1,
      appendNote true (serializeState e1) e1 w1).

(** Modelled from the spec: [Update] of environment.go (section 4.4),
    which is not among the sources.  An empty base image or setup list
    keeps the current one; for [envs] and [secrets], nil ([None]) keeps
    and a list replaces.  The container is rebuilt from the worktree
    through the engine's host-directory reference and replaced; then
    commit as [Update environment] and write the state note.  As the
    specification (Known gap), the README (Known Issues) and the skipped
    test EnvironmentVariableLimitations record of the code as it is, the
    rebuilt container is given the variables of this call only: what an
    earlier [SetEnv] exported is not exported again. *)
Definition Update (name explanation baseImage : string) (setupCommands : list string)
    (envs secrets : option (list string)) (e : Environment) (w : World)
  : Result (Environment * World) :=
  let base' := if nonEmpty baseImage then baseImage else BaseImage e in
  let setup' := match setupCommands with [] => SetupCommands e | _ => setupCommands end in
  '(c, w1) ← Build base' setup' (default [] envs) (Worktree e) w;
  let e1 := {| ID := ID e; Name := Name e; Source := Source e; Worktree := Worktree e;
               BaseImage := base'; SetupCommands := setup'; Env := default (Env e) envs;
               Secrets := default (Secrets e) secrets; History := History e; container := c |} in
  '(_, w2) ← commitEnvironment "Update environment" explanation e1 w1;
  Ok (withHistory {| entryName := "Update environment"; entryExplanation := explanation;
                     entryCommand := None; entryOutput := None |} c e1,
      appendNote true (serializeState e1) e1 w2).

(** The host path of a [file://] URI. *)
Definition hostPathOf (sourceURI : string) : string :=
  if HasPrefix sourceURI "file://"
  then String.substring 7 (String.length sourceURI - 7) sourceURI
  else sourceURI.

(** Modelled from the spec: [Upload] of filesystem.go (section 4.4),
    which is not among the sources: the host directory, through the
    engine's host-directory reference, copied into the container at
    [destPath]; then the history entry. *)
Definition Upload (explanation sourceURI destPath : string) (e : Environment) (w : World)
  : Result (Environment * World) :=
  '(snapshot, w1) ← hostDirectory (hostPathOf sourceURI) w;
  let c := {| image := image (container e);
              cfiles := mountAt destPath snapshot ∪ cfiles (container e);
              cenv := cenv (container e) |} in
  Ok (withHistory {| entryName := "Upload " +:+ sourceURI +:+ " -> " +:+ destPath;
                     entryExplanation := explanation;
                     entryCommand := None; entryOutput := None |} c e, w1).

(** ** Test helpers that drive git (TestEnv)

    [func (te *TestEnv) GitCommit(message string)]: [git add .], whose
    result is dropped, then [git commit -m message]. *)
Definition GitCommit (message : string) (g : GitDir) : Result GitDir :=
  gitCommit message "" (gitAddAll g).

(** [func (te *TestEnv) GitStatus() string] *)
Definition GitStatus (g : GitDir) : string := gitStatusPorcelain g.

(** [NewTestEnv]: [git init] in a fresh temporary directory. *)
Definition gitInit : GitDir := {| work := emptyDir; index := ∅; commits := [] |}.

(** The repository after the helpers of a test's setup ran.  A setup
    that stops is not followed (the test is over): the repository is
    then taken as it was.  The setups below all run through. *)
Definition inRepo (script : list (Dir -> Outcome)) (g : GitDir) : GitDir :=
  match setup script (work g) with
  | Done d => {| work := d; index := index g; commits := commits g |}
  | Aborted | Elsewhere => g
  end.

(** [func (v *verifier) gitLogContains(pattern string)], as a test. *)
Definition gitLogContains (pattern : string) (e : Environment) (w : World) : bool :=
  Contains (gitLogOneline (branchOf w (mirrorPath w (Source e)) (ID e))) pattern.

(** ** Mutating operations, and what one environment shows of itself *)

Inductive Operation :=
| OpFileWrite (explanation targetFile contents : string)
| OpRun (explanation command shell : string) (useEntrypoint : bool)
| OpSetEnv (explanation : string) (envs : list string)
| OpUpdate (name explanation baseImage : string) (setupCommands : list string)
           (envs secrets : option (list string))
| OpUpload (explanation sourceURI destPath : string).

Definition perform (op : Operation) (e : Environment) (w : World)
  : Result (Environment * World) :=
  match op with
  | OpFileWrite x f c => FileWrite x f c e w
  | OpRun x c s u => snd (Run x c s u e w)
  | OpSetEnv x vs => SetEnv x vs e w
  | OpUpdate n x b s vs ss => Update n x b s vs ss e w
  | OpUpload x src dst => Upload x src dst e w
  end.

(** The shared state an environment can be observed through: its
    worktree on disk, and its branch in the mirror and in the source
    repository. *)
Definition observed (w : World) (e : Environment)
  : option Dir * list Commit * list Commit :=
  (host w !! Worktree e,
   branchOf w (mirrorPath w (Source e)) (ID e),
   branchOf w (Source e) (ID e)).

(** [untouched e w w']: from [w] to [w'] the worktree of [e] and every
    branch named after [e] are the same, as is the configuration
    directory that locates them. *)
Definition untouched (e : Environment) (w w' : World) : Prop :=
  configDir w' = configDir w /\
  host w' !! Worktree e = host w !! Worktree e /\
  forall repo : string, branchOf w' repo (ID e) = branchOf w repo (ID e).

(** ** The scenarios of the tests *)

Definition dquote : string := String "034"%char "".
Definition newline : string := String "010"%char "".

(** The scenarios run on a machine that grants the helpers what they
    ask for: the first argument of each helper is [true]. *)

(** TestSelectiveFileStaging, python_project_with_pycache *)
Definition pythonWithPycache : GitDir :=
  inRepo [ WriteFile true "main.py" "print('hello')";
           WriteFile true "utils.py" "def helper(): pass";
           CreateDir true "__pycache__";
           WriteBinaryFile true "__pycache__/main.cpython-39.pyc" 150;
           WriteBinaryFile true "__pycache__/utils.cpython-39.pyc" 200 ] gitInit.

(** TestSelectiveFileStaging, mixed_content_directory *)
Definition mixedContentDirectory : GitDir :=
  inRepo [ CreateDir true "mydir";
           WriteFile true "mydir/readme.txt" "Documentation";
           WriteBinaryFile true "mydir/compiled.bin" 100;
           WriteFile true "mydir/script.sh" ("#!/bin/bash" +:+ newline +:+ "echo hello");
           WriteBinaryFile true "mydir/image.jpg" 5000 ] gitInit.

(** TestSelectiveFileStaging, node_modules_and_build_artifacts *)
Definition prodConfig : string := "{" +:+ dquote +:+ "prod" +:+ dquote +:+ ": true}".

Definition nodeModulesAndBuild : GitDir :=
  inRepo [ WriteFile true "index.js" "console.log('app')";
           CreateDir true "node_modules/lodash";
           WriteFile true "node_modules/lodash/index.js" "module.exports = {}";
           CreateDir true "build";
           WriteBinaryFile true "build/app.exe" 1024;
           WriteFile true "build/config.json" prodConfig ] gitInit.


(** TestEmptyDirectoryHandling *)
Definition emptyDirectories : GitDir :=
  inRepo [ CreateDir true "empty1"; CreateDir true "empty2/nested" ] gitInit.

(** TestSystemHandlesProblematicFiles, BinaryDirectories: what the
    command leaves in the worktree, a directory holding binary files
    only, on top of a committed project. *)
Definition binaryOnlyDirectory : GitDir :=
  inRepo [ CreateDir true "__pycache__";
           WriteBinaryFile true "__pycache__/main.cpython-39.pyc" 1024;
           WriteBinaryFile true "__pycache__/utils.cpython-39.pyc" 1024 ]
    {| work := putFile "main.py" "print('hello')" emptyDir;
       index := {[ "main.py" := "print('hello')" ]};
       commits := [ {| subject := "Initial Python project"; body := "";
                       tree := {[ "main.py" := "print('hello')" ]};
                       logNotes := []; stateNotes := [] |} ] |}.

(** [SetupPythonProject] and [SetupNodeProject], on a fresh test
    repository. *)
Definition pythonProject : Result GitDir :=
  GitCommit "Initial Python project"
    (inRepo [ WriteFile true "main.py"
                ("def main():" +:+ newline +:+ "    print('Hello World')" +:+ newline +:+ newline +:+
                 "if __name__ == '__main__':" +:+ newline +:+ "    main()" +:+ newline);
              WriteFile true "utils.py" ("def helper():" +:+ newline +:+ "    return 42" +:+ newline);
              WriteFile true "requirements.txt" ("requests==2.31.0" +:+ newline +:+ "numpy==1.24.0" +:+ newline);
              WriteFile true ".gitignore" ("__pycache__/" +:+ newline +:+ "*.pyc" +:+ newline +:+
                                           ".env" +:+ newline +:+ "venv/" +:+ newline) ] gitInit).

Definition quoted (s : string) : string := dquote +:+ s +:+ dquote.

Definition packageJSON : string :=
  String.concat newline
    [ "{";
      "  " +:+ quoted "name" +:+ ": " +:+ quoted "test-project" +:+ ",";
      "  " +:+ quoted "version" +:+ ": " +:+ quoted "1.0.0" +:+ ",";
      "  " +:+ quoted "main" +:+ ": " +:+ quoted "index.js" +:+ ",";
      "  " +:+ quoted "scripts" +:+ ": {";
      "    " +:+ quoted "start" +:+ ": " +:+ quoted "node index.js" +:+ ",";
      "    " +:+ quoted "test" +:+ ": " +:+ quoted "jest";
      "  },";
      "  " +:+ quoted "dependencies" +:+ ": {";
      "    " +:+ quoted "express" +:+ ": " +:+ quoted "^4.18.0";
      "  }";
      "}" ].

Definition nodeProject : Result GitDir :=
  GitCommit "Initial Node project"
    (inRepo [ WriteFile true "package.json" packageJSON;
              WriteFile true "index.js" ("console.log('Hello from Node.js');" +:+ newline);
              WriteFile true ".gitignore" ("node_modules/" +:+ newline +:+ ".env" +:+ newline) ] gitInit).

(** The world of a test: the repository of [NewTestEnv] at [repoDir],
    on its initial branch, and an empty configuration directory. *)
Definition testWorld (repoDir config : string) (project : Result GitDir) : Result World :=
  g ← project;
  Ok {| configDir := config;
        host := {[ repoDir := work g ]};
        repos := {[ repoDir := {| HEAD := "master"; branches := {[ "master" := commits g ]} |} ]};
        hostDirMemo := ∅ |}.

(** The value of a step that is known to succeed. *)
Definition orElse {A} (r : Result A) (d : A) : A :=
  match r with
  | Ok a => a
  | Err _ => d
  end.

Definition noContainer : Container := {| image := ""; cfiles := ∅; cenv := [] |}.

Definition noEnvironment : Environment :=
  {| ID := ""; Name := ""; Source := ""; Worktree := ""; BaseImage := "";
     SetupCommands := []; Env := []; Secrets := []; History := []; container := noContainer |}.

Definition noWorld : World :=
  {| configDir := ""; host := ∅; repos := ∅; hostDirMemo := ∅ |}.

(** TestMultipleEnvironmentsRemainIsolated (specification, scenario 2):
    two environments created from the same source. *)
Definition isolationSetup : Result (Environment * Environment * World) :=
  w ← testWorld "/tmp/cu-test-isolation" "/tmp/cu-test-config-isolation" pythonProject;
  '(dev, w) ← Create "Test environment" "/tmp/cu-test-isolation" "dev" ["happy-otter"] w;
  '(staging, w) ← Create "Staging Environment" (Source dev) "staging" ["brave-lynx"] w;
  Ok (dev, staging, w).

Definition devConfig : string :=
  "{" +:+ dquote +:+ "env" +:+ dquote +:+ ": " +:+ dquote +:+ "development" +:+ dquote +:+ "}".

(** The answer of [FileRead(staging, "config.dev.json")] after
    [FileWrite(dev, "config.dev.json", ...)], and the two logs. *)
Definition isolationScenario : Result (Result string * string * string) :=
  '(dev, staging, w) ← isolationSetup;
  '(dev, w) ← FileWrite "Dev config" "config.dev.json" devConfig dev w;
  Ok (FileRead "config.dev.json" true 0 0 staging,
      gitLogOneline (branchOf w (mirrorPath w (Source dev)) (ID dev)),
      gitLogOneline (branchOf w (mirrorPath w (Source staging)) (ID staging))).

(** TestWorktreeUpdatesAreVisibleAfterRebuild (specification, scenario
    3): the output of [sh script.sh] before and after the rebuild. *)
Definition rebuildScenario : Result (string * string) :=
  w ← testWorld "/tmp/cu-test-worktree_cache" "/tmp/cu-test-config-worktree_cache" nodeProject;
  '(e, w) ← Create "Test environment" "/tmp/cu-test-worktree_cache" "worktree_cache" ["happy-otter"] w;
  '(e, w) ← FileWrite "Create script" "script.sh" "echo Version 1" e w;
  let before := Run "Test command" "sh script.sh" "/bin/sh" false e w in
  '(e, w) ← snd before;
  '(e, w) ← FileWrite "Update script" "script.sh" "echo Version 2" e w;
  '(e, w) ← Update "Rebuild" "Force rebuild" (BaseImage e) (SetupCommands e) None None e w;
  let after := Run "Test command" "sh script.sh" "/bin/sh" false e w in
  Ok (fst before, fst after).

(** TestUploadAfterModification (specification, scenario 4): what
    [FileRead] answers for the uploaded file after the first and after
    the second upload. *)
Definition uploadScenario : Result (Result string * Result string) :=
  w ← testWorld "/tmp/cu-test-upload_cache" "/tmp/cu-test-config-upload_cache" nodeProject;
  '(e, w) ← Create "Test environment" "/tmp/cu-test-upload_cache" "upload_cache" ["happy-otter"] w;
  let localDir := "/tmp/upload-test" in
  let w := setHost localDir (putFile "script.js" "console.log('Version 1');" emptyDir) w in
  '(e, w) ← Upload "Upload v1" ("file://" +:+ localDir) "/app" e w;
  let first := FileRead "/app/script.js" true 0 0 e in
  let w := setHost localDir (putFile "script.js" "console.log('Version 2');" emptyDir) w in
  '(e, w) ← Upload "Upload v2" ("file://" +:+ localDir) "/app" e w;
  Ok (first, FileRead "/app/script.js" true 0 0 e).

(** TestEnvironmentConfigurationPersists, EnvironmentVariableLimitations:
    the output of [echo API_URL=$API_URL NODE_ENV=$NODE_ENV PORT=$PORT]
    before and after the rebuild. *)
Definition envvarScenario : Result (string * string) :=
  w ← testWorld "/tmp/cu-test-envvar_test" "/tmp/cu-test-config-envvar_test" nodeProject;
  '(e, w) ← Create "Test env vars" "/tmp/cu-test-envvar_test" "envvar-test" ["happy-otter"] w;
  '(e, w) ← SetEnv "Configure app"
               ["API_URL=https://api.example.com"; "NODE_ENV=production"; "PORT=3000"] e w;
  let command := "echo API_URL=$API_URL NODE_ENV=$NODE_ENV PORT=$PORT" in
  let before := Run "Test command" command "/bin/sh" false e w in
  '(e, w) ← snd before;
  '(e, w) ← Update "Rebuild" "Rebuild container" (BaseImage e) (SetupCommands e) None None e w;
  let after := Run "Test command" command "/bin/sh" false e w in
  Ok (fst before, fst after).

(** ** The test package's own setup

    [func init()] of the test helpers: warnings and errors only, unless
    TEST_VERBOSE is set; the handler writes to stderr. *)
Definition init (p : Main.Process) : Main.Process :=
  let level := if negb (String.eqb (Main.Getenv p "TEST_VERBOSE") "")
               then slog.LevelInfo else slog.LevelWarn in
  {| Main.environ := Main.environ p;
     Main.openError := Main.openError p;
     Main.logWriter := Main.logWriter p;
     Main.globalLog := Main.globalLog p;
     Main.slogDefault := {| Main.handlerWriter := Main.Stderr; Main.handlerLevel := level |} |}.

(** [os.Setenv] and [os.Unsetenv] on the process environment. *)
Definition Setenv (key value : string) (p : Main.Process) : Main.Process :=
  {| Main.environ := <[key := value]> (Main.environ p);
     Main.openError := Main.openError p;
     Main.logWriter := Main.logWriter p;
     Main.globalLog := Main.globalLog p;
     Main.slogDefault := Main.slogDefault p |}.

Definition Unsetenv (key : string) (p : Main.Process) : Main.Process :=
  {| Main.environ := delete key (Main.environ p);
     Main.openError := Main.openError p;
     Main.logWriter := Main.logWriter p;
     Main.globalLog := Main.globalLog p;
     Main.slogDefault := Main.slogDefault p |}.

Definition configDirVar : string := "CONTAINER_USE_CONFIG_DIR".

(** What [NewTestEnv] does to the process environment: it remembers
    [oldConfigDir := os.Getenv("CONTAINER_USE_CONFIG_DIR")] and sets the
    variable to the temporary configuration directory. *)
Definition NewTestEnv_setenv (configDir : string) (p : Main.Process) : string * Main.Process :=
  (Main.Getenv p configDirVar, Setenv configDirVar configDir p).

(** What the cleanup function registered by [NewTestEnv] does to the
    process environment: unset the variable when the remembered value
    is empty, set it back otherwise. *)
Definition NewTestEnv_cleanup (oldConfigDir : string) (p : Main.Process) : Main.Process :=
  if String.eqb oldConfigDir ""
  then Unsetenv configDirVar p
  else Setenv configDirVar oldConfigDir p.

(** ** The Dagger client shared by the tests

    The package-level variables [dag] (the client the package works
    with), [testDaggerClient], [daggerOnce] and [daggerErr]; a
    [sync.Once] is the flag that its function has run.  [closedClients]
    records the calls of [client.Close()]. *)
Definition Client := nat.

Record Globals := {
  dag : option Client;
  testDaggerClient : option Client;
  daggerOnce : bool;
  daggerErr : option string;
  closedClients : list Client
}.

(** [func initializeDaggerOnce(t *testing.T)].  [Connect] is what
    [dagger.Connect] returns when it is called, [Initialize] the
    package's [Initialize(client)], given the current [dag] and
    returning the new one with its error.  The result is the message of
    [t.Skipf], if the test is skipped. *)
Definition initializeDaggerOnce (Connect : string + Client)
    (Initialize : Client -> option Client -> option Client * option string)
    (g : Globals) : option string * Globals :=
  let g1 :=
    if daggerOnce g then g
    else
      let g' :=
        match dag g with
        | Some _ => g
        | None =>
            match Connect with
            | inl err =>
                {| dag := dag g; testDaggerClient := testDaggerClient g;
                   daggerOnce := daggerOnce g; daggerErr := Some err;
                   closedClients := closedClients g |}
            | inr client =>
                match Initialize client (dag g) with
                | (dag', Some err) =>
                    {| dag := dag'; testDaggerClient := testDaggerClient g;
                       daggerOnce := daggerOnce g; daggerErr := Some err;
                       closedClients := client :: closedClients g |}
                | (dag', None) =>
                    {| dag := dag'; testDaggerClient := Some client;
                       daggerOnce := daggerOnce g; daggerErr := daggerErr g;
                       closedClients := closedClients g |}
                end
            end
        end in
      {| dag := dag g'; testDaggerClient := testDaggerClient g';
         daggerOnce := true; daggerErr := daggerErr g';
         closedClients := closedClients g' |} in
  (match daggerErr g1 with
   | Some err => Some ("Skipping test - Dagger not available: " +:+ err)
   | None => None
   end, g1).

(** The variables when the test binary starts. *)
Definition noDagger : Globals :=
  {| dag := None; testDaggerClient := None; daggerOnce := false;
     daggerErr := None; closedClients := [] |}.

End environment.

(* ===================================================================== *)
(** * Properties of log.go *)
(* ===================================================================== *)

Module MainFacts.

Import slog Main.

(** A [case] clause fires exactly on its labels. *)
Lemma switch_case_elem (tag : string) (labels : list string) :
  switch_case tag labels = true <-> tag ∈ labels.
Proof.
  unfold switch_case. induction labels as [|l ls IH]; simpl.
  - split; [discriminate | intros H; inversion H].
  - rewrite orb_true_iff, IH, elem_of_cons, String.eqb_eq. tauto.
Qed.

Lemma Getenv_set (p : Process) (key v : string) :
  environ p !! key = Some v -> Getenv p key = v.
Proof. unfold Getenv. intros ->. reflexivity. Qed.

(** The two outcomes of [setupLogger], by what the environment and the
    file system answer. *)
Lemma setupLogger_no_file (p : Process) :
  Getenv p "CU_STDERR_FILE" = "" ->
  setupLogger p = (installLogger p [Stderr], None).
Proof. unfold setupLogger. intros ->. reflexivity. Qed.

Lemma setupLogger_open_fails (p : Process) (err : string) :
  Getenv p "CU_STDERR_FILE" <> "" ->
  openError p (Getenv p "CU_STDERR_FILE") = Some err ->
  setupLogger p
  = (p, Some ("failed to open log file " +:+ Getenv p "CU_STDERR_FILE" +:+ ": " +:+ err)).
Proof.
  intros Hne Herr. unfold setupLogger, OpenFile.
  apply String.eqb_neq in Hne. rewrite Hne, Herr. reflexivity.
Qed.

Lemma setupLogger_open_ok (p : Process) :
  Getenv p "CU_STDERR_FILE" <> "" ->
  openError p (Getenv p "CU_STDERR_FILE") = None ->
  exists p1,
    setupLogger p
    = (installLogger p1 [Stderr; FileWriter {| fileName := Getenv p "CU_STDERR_FILE" |}], None)
    /\ environ p1 = environ p.
Proof.
  intros Hne Hok. unfold setupLogger, OpenFile.
  apply String.eqb_neq in Hne. rewrite Hne, Hok. simpl.
  eexists. split; [reflexivity | reflexivity].
Qed.

Lemma installLogger_level (p : Process) (ws : list Writer) :
  handlerLevel (slogDefault (installLogger p ws)) = parseLogLevel (Getenv p "CU_LOG_LEVEL").
Proof. reflexivity. Qed.

Lemma installLogger_stderr_first (p : Process) (ws : list Writer) :
  SinkStderr ∈ sinks (handlerWriter (slogDefault (installLogger p (Stderr :: ws)))).
Proof. simpl. apply list_elem_of_here. Qed.

Lemma emit_reaches (l : Logger) (s : Sink) (lvl : Level) (line : string) :
  s ∈ sinks (handlerWriter l) -> (handlerLevel l <= lvl)%Z -> (s, line) ∈ emit l lvl line.
Proof.
  intros Hs Hl. unfold emit.
  apply Z.leb_le in Hl. rewrite Hl.
  apply (list_elem_of_fmap_2 (fun s => (s, line))) in Hs. exact Hs.
Qed.

(** What a successful run installs. *)
Lemma setupLogger_success (p : Process) :
  snd (setupLogger p) = None ->
  exists p1 ws,
    fst (setupLogger p) = installLogger p1 (Stderr :: ws) /\ environ p1 = environ p.
Proof.
  intros Hnil.
  destruct (String.eqb_spec (Getenv p "CU_STDERR_FILE") "") as [He|Hne].
  - rewrite (setupLogger_no_file p He). exists p, []. split; reflexivity.
  - destruct (openError p (Getenv p "CU_STDERR_FILE")) as [err|] eqn:Hopen.
    + rewrite (setupLogger_open_fails p err Hne Hopen) in Hnil. discriminate.
    + destruct (setupLogger_open_ok p Hne Hopen) as (p1 & -> & Henv).
      exists p1, [FileWriter {| fileName := Getenv p "CU_STDERR_FILE" |}]. split; [reflexivity | exact Henv].
Qed.

(** C9.  [parseLogLevel] answers the level a string names when the
    string is one of debug, info, warn or error, written all in lower or
    all in upper case, or warning for warn; every other string gives the
    info level.  So an unset CU_LOG_LEVEL, which [os.Getenv] reads as
    the empty string, makes [setupLogger] install a handler at the info
    level. *)
Theorem parseLogLevel_named_or_info :
  (forall s : string,
      (s ∈ ["debug"; "DEBUG"] -> parseLogLevel s = LevelDebug) /\
      (s ∈ ["info"; "INFO"] -> parseLogLevel s = LevelInfo) /\
      (s ∈ ["warn"; "WARN"; "warning"; "WARNING"] -> parseLogLevel s = LevelWarn) /\
      (s ∈ ["error"; "ERROR"] -> parseLogLevel s = LevelError) /\
      (s ∉ ["debug"; "DEBUG"; "info"; "INFO"; "warn"; "WARN"; "warning"; "WARNING";
            "error"; "ERROR"] -> parseLogLevel s = LevelInfo)) /\
  (forall p : Process,
      environ p !! "CU_LOG_LEVEL" = None ->
      snd (setupLogger p) = None ->
      handlerLevel (slogDefault (fst (setupLogger p))) = LevelInfo).
Proof.
  split.
  - intros s. repeat split.
    + intros H. rewrite !elem_of_cons in H.
      destruct H as [->|[->|H]]; [reflexivity | reflexivity | inversion H].
    + intros H. rewrite !elem_of_cons in H.
      destruct H as [->|[->|H]]; [reflexivity | reflexivity | inversion H].
    + intros H. rewrite !elem_of_cons in H.
      destruct H as [->|[->|[->|[->|H]]]]; try reflexivity. inversion H.
    + intros H. rewrite !elem_of_cons in H.
      destruct H as [->|[->|H]]; [reflexivity | reflexivity | inversion H].
    + intros H. unfold parseLogLevel.
      destruct (switch_case s ["debug"; "DEBUG"]) eqn:Hd.
      { apply switch_case_elem in Hd. exfalso. apply H.
        rewrite !elem_of_cons in Hd. rewrite !elem_of_cons. tauto. }
      destruct (switch_case s ["info"; "INFO"]) eqn:Hi; [reflexivity|].
      destruct (switch_case s ["warn"; "WARN"; "warning"; "WARNING"]) eqn:Hw.
      { apply switch_case_elem in Hw. exfalso. apply H.
        rewrite !elem_of_cons in Hw. rewrite !elem_of_cons. tauto. }
      destruct (switch_case s ["error"; "ERROR"]) eqn:He; [|reflexivity].
      apply switch_case_elem in He. exfalso. apply H.
      rewrite !elem_of_cons in He. rewrite !elem_of_cons. tauto.
  - intros p Hunset Hnil.
    destruct (setupLogger_success p Hnil) as (p1 & ws & -> & Henv).
    rewrite installLogger_level. unfold Getenv. rewrite Henv, Hunset. reflexivity.
Qed.

(** The levels named in C9 at concrete inputs: a mixed-case spelling is
    not a name, and an unset variable gives info. *)
Lemma parseLogLevel_named_or_info_witness :
  parseLogLevel "warning" = LevelWarn /\
  parseLogLevel "Debug" = LevelInfo /\
  handlerLevel (slogDefault (fst (setupLogger
    {| environ := ∅; openError := fun _ => None; logWriter := None; globalLog := None;
       slogDefault := {| handlerWriter := Stderr; handlerLevel := LevelError |} |}))) = LevelInfo.
Proof.
  split; [|split].
  - apply (proj1 parseLogLevel_named_or_info "warning"). set_solver.
  - apply (proj1 parseLogLevel_named_or_info "Debug").
    rewrite !not_elem_of_cons. repeat split; try discriminate. apply not_elem_of_nil.
  - apply (proj2 parseLogLevel_named_or_info); reflexivity.
Defined.

(** C10.  [setupLogger] returns an error exactly when CU_STDERR_FILE is
    set to a (non-empty) path that cannot be opened for append.  When it
    succeeds, stderr is among the sinks of the installed logger, with or
    without a log file, and every record at or above the handler's level
    is written to stderr.  When it fails, the process state, the default
    logger included, is as before. *)
Theorem setupLogger_error_iff_unopenable (p : Process) :
  (snd (setupLogger p) <> None <->
     exists path, environ p !! "CU_STDERR_FILE" = Some path /\ path <> ""
                  /\ openError p path <> None) /\
  (snd (setupLogger p) = None ->
     SinkStderr ∈ sinks (handlerWriter (slogDefault (fst (setupLogger p)))) /\
     forall (lvl : Level) (line : string),
       (handlerLevel (slogDefault (fst (setupLogger p))) <= lvl)%Z ->
       (SinkStderr, line) ∈ emit (slogDefault (fst (setupLogger p))) lvl line) /\
  (snd (setupLogger p) <> None ->
     fst (setupLogger p) = p /\ slogDefault (fst (setupLogger p)) = slogDefault p).
Proof.
  split; [|split].
  - split.
    + intros Herr.
      destruct (String.eqb_spec (Getenv p "CU_STDERR_FILE") "") as [He|Hne].
      { rewrite (setupLogger_no_file p He) in Herr. contradiction. }
      destruct (openError p (Getenv p "CU_STDERR_FILE")) as [err|] eqn:Hopen.
      * exists (Getenv p "CU_STDERR_FILE"). split; [|split]; [| exact Hne | congruence].
        unfold Getenv in *. destruct (environ p !! "CU_STDERR_FILE"); [reflexivity|].
        contradiction Hne. reflexivity.
      * destruct (setupLogger_open_ok p Hne Hopen) as (p1 & Heq & _).
        rewrite Heq in Herr. contradiction.
    + intros (path & Hset & Hne & Hopen).
      apply Getenv_set in Hset.
      destruct (openError p path) as [err|] eqn:Herr; [|contradiction].
      rewrite <- Hset in Hne, Herr.
      rewrite (setupLogger_open_fails p err Hne Herr). discriminate.
  - intros Hnil.
    destruct (setupLogger_success p Hnil) as (p1 & ws & Heq & _).
    assert (Hin : SinkStderr ∈ sinks (handlerWriter (slogDefault (fst (setupLogger p))))).
    { rewrite Heq. apply installLogger_stderr_first. }
    split; [exact Hin|].
    intros lvl line Hlvl. apply emit_reaches; assumption.
  - intros Herr.
    destruct (String.eqb_spec (Getenv p "CU_STDERR_FILE") "") as [He|Hne].
    { rewrite (setupLogger_no_file p He) in Herr. contradiction. }
    destruct (openError p (Getenv p "CU_STDERR_FILE")) as [err|] eqn:Hopen.
    + rewrite (setupLogger_open_fails p err Hne Hopen). split; reflexivity.
    + destruct (setupLogger_open_ok p Hne Hopen) as (p1 & Heq & _).
      rewrite Heq in Herr. contradiction.
Qed.

(** *** [setupLogger] on concrete processes *)

Example setup_plain :
  snd (setupLogger quietProcess) = None /\
  sinks (handlerWriter (slogDefault (fst (setupLogger quietProcess)))) = [SinkStderr].
Proof. split; reflexivity. Qed.

Example setup_with_file :
  let p := withEnv "CU_STDERR_FILE" "/tmp/cu.debug.stderr.log" quietProcess in
  snd (setupLogger p) = None /\
  sinks (handlerWriter (slogDefault (fst (setupLogger p))))
    = [SinkStderr; SinkFile "/tmp/cu.debug.stderr.log"] /\
  globalLog (fst (setupLogger p)) = Some {| fileName := "/tmp/cu.debug.stderr.log" |}.
Proof. vm_compute. auto. Qed.

Example setup_unopenable :
  snd (setupLogger unopenable)
  = Some "failed to open log file /nonexistent/cu.log: no such file or directory".
Proof. vm_compute. reflexivity. Qed.

(** A variable set to the empty string reads like an unset one: no file
    is opened, whatever opening the empty path would answer. *)
Example setup_empty_value :
  snd (setupLogger (failingOpen "" "no such file or directory"
                      (withEnv "CU_STDERR_FILE" "" quietProcess))) = None.
Proof. vm_compute. reflexivity. Qed.

(** C10 at concrete processes: the unopenable path gives the error and
    leaves the logger alone; the plain process logs to stderr. *)
Lemma setupLogger_error_iff_unopenable_witness :
  snd (setupLogger unopenable) <> None /\
  slogDefault (fst (setupLogger unopenable)) = slogDefault unopenable /\
  (SinkStderr, "ready") ∈ emit (slogDefault (fst (setupLogger quietProcess))) LevelWarn "ready".
Proof.
  assert (Hbad : snd (setupLogger unopenable) <> None).
  { apply (proj1 (setupLogger_error_iff_unopenable unopenable)).
    exists "/nonexistent/cu.log". split; [reflexivity|]. split; discriminate. }
  split; [exact Hbad|]. split.
  - apply (proj2 (proj2 (setupLogger_error_iff_unopenable unopenable))). exact Hbad.
  - apply (proj2 (proj1 (proj2 (setupLogger_error_iff_unopenable quietProcess)) eq_refl)).
    vm_compute. discriminate.
Defined.

End MainFacts.

(* ===================================================================== *)
(** * Properties of the environment package *)
(* ===================================================================== *)

Module EnvironmentFacts.

Import environment.

(** ** The result monad *)

Lemma bind_Ok {A B} (r : Result A) (k : A -> Result B) (b : B) :
  (r ≫= k) = Ok b -> exists a, r = Ok a /\ k a = Ok b.
Proof. destruct r as [a|e]; simpl; [eauto | discriminate]. Qed.

Ltac inv_bind H :=
  let a := fresh "a" in
  let Ha := fresh "Hstep" in
  apply bind_Ok in H; destruct H as (a & Ha & H); cbv beta in H.

(** ** Staging *)

(** What staging leaves in the index, path by path: an accepted file
    of the worktree with its content, anything else as it was. *)
Lemma addNonBinaryFilesBy_spec (ignored : string -> bool) (g : GitDir) :
  work (addNonBinaryFilesBy ignored g) = work g /\
  commits (addNonBinaryFilesBy ignored g) = commits g /\
  forall p : string,
    index (addNonBinaryFilesBy ignored g) !! p
    = match files (work g) !! p with
      | Some c => if acceptedBy ignored p c then Some c else index g !! p
      | None => index g !! p
      end.
Proof.
  unfold addNonBinaryFilesBy.
  apply (map_fold_weak_ind
           (fun acc m =>
              work acc = work g /\ commits acc = commits g /\
              forall p : string,
                index acc !! p
                = match m !! p with
                  | Some c => if acceptedBy ignored p c then Some c else index g !! p
                  | None => index g !! p
                  end)).
  - split; [reflexivity|]. split; [reflexivity|]. intros p. rewrite lookup_empty. reflexivity.
  - intros i x m r Hi (Hw & Hc & Hidx).
    destruct (acceptedBy ignored i x) eqn:Hacc.
    + split; [exact Hw|]. split; [exact Hc|].
      intros p. simpl. destruct (decide (i = p)) as [->|Hne].
      * rewrite !lookup_insert_eq, Hacc. reflexivity.
      * rewrite !lookup_insert_ne by exact Hne. apply Hidx.
    + split; [exact Hw|]. split; [exact Hc|].
      intros p. destruct (decide (i = p)) as [->|Hne].
      * rewrite lookup_insert_eq, Hacc, Hidx, Hi. reflexivity.
      * rewrite lookup_insert_ne by exact Hne. apply Hidx.
Qed.

Lemma addNonBinaryFiles_spec (g : GitDir) :
  work (addNonBinaryFiles g) = work g /\
  commits (addNonBinaryFiles g) = commits g /\
  forall p : string,
    index (addNonBinaryFiles g) !! p
    = match files (work g) !! p with
      | Some c => if accepted (work g) p c then Some c else index g !! p
      | None => index g !! p
      end.
Proof. exact (addNonBinaryFilesBy_spec (gitignored (work g)) g). Qed.



(** The three scenarios of TestSelectiveFileStaging come out as the
    test expects: every [shouldStage] path is staged, no [shouldSkip]
    pattern is, and the patterns without a slash stay untracked. *)
Example staging_python_project_with_pycache :
  let status := GitStatus (addNonBinaryFiles pythonWithPycache) in
  Contains status "A  main.py" = true /\ Contains status "A  utils.py" = true /\
  Contains status "A  __pycache__" = false /\ Contains status "?? __pycache__" = true.
Proof. vm_compute. auto. Qed.

Example staging_mixed_content_directory :
  let status := GitStatus (addNonBinaryFiles mixedContentDirectory) in
  Contains status "A  mydir/readme.txt" = true /\ Contains status "A  mydir/script.sh" = true /\
  Contains status "A  mydir/compiled.bin" = false /\ Contains status "A  mydir/image.jpg" = false.
Proof. vm_compute. auto. Qed.

Example staging_node_modules_and_build :
  let status := GitStatus (addNonBinaryFiles nodeModulesAndBuild) in
  Contains status "A  index.js" = true /\
  Contains status "A  node_modules" = false /\ Contains status "?? node_modules" = true /\
  Contains status "A  build" = false /\ Contains status "?? build" = true.
Proof. vm_compute. auto. Qed.





(** ** Committing when nothing is staged *)

(** A clean status after staging: success, and the history as before. *)
Lemma commitWorktreeChanges_clean (name explanation : string) (g : GitDir) :
  GitStatus (addNonBinaryFiles g) = "" ->
  commitWorktreeChanges name explanation g = Ok (addNonBinaryFiles g) /\
  commits (addNonBinaryFiles g) = commits g.
Proof.
  intros Hclean. unfold commitWorktreeChanges.
  unfold GitStatus in Hclean. rewrite Hclean. simpl.
  split; [reflexivity|]. apply addNonBinaryFiles_spec.
Qed.

(** A commit, when one is made, is never empty: its tree differs from
    the tree of its parent. *)
Lemma commitWorktreeChanges_commit_not_empty (name explanation : string) (g g' : GitDir) :
  index g = headTree g ->
  commitWorktreeChanges name explanation g = Ok g' ->
  commits g' = commits g \/
  exists c, commits g' = c :: commits g /\ subject c = name /\ tree c <> headTree g.
Proof.
  intros Hidx. unfold commitWorktreeChanges.
  destruct (addNonBinaryFiles_spec g) as (Hw & Hc & _).
  destruct (String.eqb (gitStatusPorcelain (addNonBinaryFiles g)) "").
  - intros [= <-]. left. exact Hc.
  - unfold gitCommit. case_bool_decide as Hsame; [discriminate|].
    intros [= <-]. right. simpl. eexists. split; [rewrite Hc; reflexivity|].
    split; [reflexivity|]. simpl.
    unfold headTree in *. rewrite Hc in Hsame. exact Hsame.
Qed.


(** ** What an operation on one environment leaves alone *)

Lemma untouched_refl (e : Environment) (w : World) : untouched e w w.
Proof. split; [|split]; reflexivity. Qed.

Lemma untouched_trans (e : Environment) (w1 w2 w3 : World) :
  untouched e w1 w2 -> untouched e w2 w3 -> untouched e w1 w3.
Proof.
  intros (Hc1 & Hh1 & Hb1) (Hc2 & Hh2 & Hb2).
  split; [congruence|]. split; [congruence|].
  intros repo. rewrite Hb2. apply Hb1.
Qed.

Lemma setBranch_untouched (e : Environment) (repo b : string) (h : list Commit) (w : World) :
  b <> ID e -> untouched e w (setBranch repo b h w).
Proof.
  intros Hb. unfold setBranch.
  destruct (repos w !! repo) as [r|] eqn:Hr; [|apply untouched_refl].
  split; [reflexivity|]. split; [reflexivity|].
  intros repo'. unfold branchOf. simpl.
  destruct (decide (repo = repo')) as [<-|Hne].
  - rewrite lookup_insert_eq, Hr. simpl.
    rewrite lookup_insert_ne by exact Hb. reflexivity.
  - rewrite lookup_insert_ne by exact Hne. reflexivity.
Qed.

Lemma setEnvBranch_untouched (e1 e2 : Environment) (h : list Commit) (w : World) :
  ID e1 <> ID e2 -> untouched e2 w (setEnvBranch e1 h w).
Proof.
  intros Hne. unfold setEnvBranch.
  eapply untouched_trans; apply setBranch_untouched; exact Hne.
Qed.

Lemma setHost_untouched (e : Environment) (path : string) (d : Dir) (w : World) :
  path <> Worktree e -> untouched e w (setHost path d w).
Proof.
  intros Hne. split; [reflexivity|]. split; [|reflexivity].
  simpl. apply lookup_insert_ne. exact Hne.
Qed.

Lemma hostDirectory_untouched (e : Environment) (path : string) (d : Dir) (w w' : World) :
  hostDirectory path w = Ok (d, w') -> untouched e w w'.
Proof.
  unfold hostDirectory. intros H.
  destruct (hostDirMemo w !! path).
  - injection H as _ <-. apply untouched_refl.
  - destruct (host w !! path); [|discriminate].
    injection H as _ <-. split; [|split]; reflexivity.
Qed.

Lemma Build_untouched (e : Environment) (base : string) (setup env : list string)
    (dir : string) (c : Container) (w w' : World) :
  Build base setup env dir w = Ok (c, w') -> untouched e w w'.
Proof.
  unfold Build. intros H.
  inv_bind H. inv_bind H. destruct a0 as [snapshot w1].
  injection H as _ <-. eapply hostDirectory_untouched. eassumption.
Qed.

Lemma commitEnvironment_untouched (e1 e2 : Environment) (name explanation : string)
    (committed : bool) (w w' : World) :
  ID e1 <> ID e2 ->
  commitEnvironment name explanation e1 w = Ok (committed, w') ->
  untouched e2 w w'.
Proof.
  unfold commitEnvironment. intros Hne H.
  inv_bind H. inv_bind H. injection H as _ <-.
  apply setEnvBranch_untouched. exact Hne.
Qed.

Lemma appendNote_untouched (e1 e2 : Environment) (onState : bool) (payload : string) (w : World) :
  ID e1 <> ID e2 -> untouched e2 w (appendNote onState payload e1 w).
Proof.
  intros Hne. unfold appendNote.
  destruct (branchOf w (mirrorPath w (Source e1)) (ID e1)); [apply untouched_refl|].
  apply setEnvBranch_untouched. exact Hne.
Qed.

Lemma FileWrite_untouched (e1 e1' e2 : Environment) (x f c : string) (w w' : World) :
  ID e1 <> ID e2 -> Worktree e1 <> Worktree e2 ->
  FileWrite x f c e1 w = Ok (e1', w') -> untouched e2 w w'.
Proof.
  unfold FileWrite. intros Hid Hwt H.
  destruct (traverses f); [discriminate|].
  destruct (host w !! Worktree e1) as [d|]; [|discriminate].
  inv_bind H. destruct a as [committed w2]. injection H as _ <-.
  eapply untouched_trans; [|eapply commitEnvironment_untouched; eassumption].
  destruct (belowWorkdir (inContainer f)); [|apply untouched_refl].
  apply setHost_untouched. exact Hwt.
Qed.

Lemma Run_untouched (e1 e1' e2 : Environment) (x cmd sh : string) (u : bool) (w w' : World) :
  ID e1 <> ID e2 -> Worktree e1 <> Worktree e2 ->
  snd (Run x cmd sh u e1 w) = Ok (e1', w') -> untouched e2 w w'.
Proof.
  unfold Run. intros Hid Hwt H.
  set (r := Exec execFuel (container e1) cmd) in H.
  destruct (negb (snd r =? 0)%Z); [discriminate|].
  cbn [snd] in H.
  destruct (host w !! Worktree e1) as [d|]; [|discriminate].
  inv_bind H. destruct a as [committed w2]. injection H as _ <-.
  eapply untouched_trans; [apply setHost_untouched; exact Hwt|].
  eapply untouched_trans; [eapply commitEnvironment_untouched; eassumption|].
  destruct committed; [|apply untouched_refl].
  apply appendNote_untouched. exact Hid.
Qed.

Lemma SetEnv_untouched (e1 e1' e2 : Environment) (x : string) (vs : list string) (w w' : World) :
  ID e1 <> ID e2 ->
  SetEnv x vs e1 w = Ok (e1', w') -> untouched e2 w w'.
Proof.
  unfold SetEnv. intros Hid H.
  inv_bind H. destruct a as [committed w1]. injection H as _ <-.
  eapply untouched_trans; [eapply commitEnvironment_untouched; [|eassumption]; exact Hid|].
  apply appendNote_untouched. exact Hid.
Qed.

Lemma Update_untouched (e1 e1' e2 : Environment) (n x b : string) (s : list string)
    (vs ss : option (list string)) (w w' : World) :
  ID e1 <> ID e2 ->
  Update n x b s vs ss e1 w = Ok (e1', w') -> untouched e2 w w'.
Proof.
  unfold Update. intros Hid H.
  inv_bind H. destruct a as [c w1].
  inv_bind H. destruct a as [committed w2]. injection H as _ <-.
  eapply untouched_trans; [eapply Build_untouched; eassumption|].
  eapply untouched_trans; [eapply commitEnvironment_untouched; [|eassumption]; exact Hid|].
  apply appendNote_untouched. exact Hid.
Qed.

Lemma Upload_untouched (e1 e1' e2 : Environment) (x src dst : string) (w w' : World) :
  Upload x src dst e1 w = Ok (e1', w') -> untouched e2 w w'.
Proof.
  unfold Upload. intros H.
  inv_bind H. destruct a as [snapshot w1]. injection H as _ <-.
  eapply hostDirectory_untouched. eassumption.
Qed.

(** Every mutating operation keeps the identity of its environment. *)
Lemma perform_untouched (op : Operation) (e1 e1' e2 : Environment) (w w' : World) :
  ID e1 <> ID e2 -> Worktree e1 <> Worktree e2 ->
  perform op e1 w = Ok (e1', w') -> untouched e2 w w'.
Proof.
  intros Hid Hwt H. destruct op; simpl in H.
  - eapply FileWrite_untouched; eassumption.
  - eapply Run_untouched; eassumption.
  - eapply SetEnv_untouched; eassumption.
  - eapply Update_untouched; eassumption.
  - eapply Upload_untouched; eassumption.
Qed.

Lemma untouched_observed (e : Environment) (w w' : World) :
  untouched e w w' -> observed w' e = observed w e.
Proof.
  intros (Hc & Hh & Hb). unfold observed, mirrorPath.
  rewrite Hc, Hh, !Hb. reflexivity.
Qed.

(** ** Worktree paths name their environment *)

(** TestWorktreePaths: the path ends with the ID and lies in the
    worktrees directory of the configuration directory. *)
Example worktree_path_of_test_env :
  let env := {| ID := "test-env/happy-dog"; Name := ""; Source := ""; Worktree := "";
                BaseImage := ""; SetupCommands := []; Env := []; Secrets := [];
                History := []; container := noContainer |} in
  let w := {| configDir := "/home/user/.config/container-use"; host := ∅; repos := ∅;
              hostDirMemo := ∅ |} in
  HasSuffix (GetWorktreePath env w) "test-env/happy-dog" = true /\
  Contains (GetWorktreePath env w) ".config/container-use/worktrees" = true.
Proof. vm_compute. auto. Qed.

Lemma Join_slash_last_inj (pre : list string) (a b : string) :
  Join "/" (pre ++ [a]) = Join "/" (pre ++ [b]) -> a = b.
Proof.
  unfold Join. induction pre as [|x pre IH]; simpl.
  - auto.
  - destruct pre as [|y pre]; simpl in *.
    + intros H. apply (inj (String.app x)) in H. injection H. auto.
    + intros H. apply (inj (String.app x)) in H. injection H. auto.
Qed.

Lemma worktreePath_inj (config source id1 id2 : string) :
  id1 <> "" -> id2 <> "" ->
  worktreePath config source id1 = worktreePath config source id2 -> id1 = id2.
Proof.
  intros H1 H2. unfold worktreePath.
  assert (Hsplit : forall id, id <> "" ->
            List.filter nonEmpty
              [config; "worktrees"; if nonEmpty source then Base source else ""; id]
            = List.filter nonEmpty
                [config; "worktrees"; if nonEmpty source then Base source else ""] ++ [id]).
  { intros id Hid.
    change [config; "worktrees"; if nonEmpty source then Base source else ""; id]
      with ([config; "worktrees"; if nonEmpty source then Base source else ""] ++ [id]).
    rewrite List.filter_app. f_equal. simpl.
    unfold nonEmpty. destruct (String.eqb_spec id ""); [contradiction|reflexivity]. }
  rewrite (Hsplit id1 H1), (Hsplit id2 H2).
  apply Join_slash_last_inj.
Qed.

(** ** The log of the environment that was written to *)

Lemma Contains_unfold (s substr : string) :
  Contains s substr
  = if String.prefix substr s then true
    else match s with
         | EmptyString => false
         | String _ rest => Contains rest substr
         end.
Proof. destruct s; reflexivity. Qed.

Lemma prefix_append (s t : string) : String.prefix s (s +:+ t) = true.
Proof.
  induction s as [|a s IH]; simpl.
  - destruct t; reflexivity.
  - destruct (ascii_dec a a); [exact IH | contradiction].
Qed.

Lemma Contains_at_start (s t : string) : Contains (s +:+ t) s = true.
Proof. rewrite Contains_unfold, prefix_append. reflexivity. Qed.

Lemma append_assoc (a b c : string) : (a +:+ b) +:+ c = a +:+ (b +:+ c).
Proof.
  induction a as [|x a IH]; [reflexivity|].
  exact (f_equal (String x) IH).
Qed.

Lemma append_empty_r (a : string) : a +:+ "" = a.
Proof.
  induction a as [|x a IH]; [reflexivity|].
  exact (f_equal (String x) IH).
Qed.

Lemma concat_empty_cons (x : string) (l : list string) :
  String.concat "" (x :: l) = x +:+ String.concat "" l.
Proof. destruct l; simpl; [rewrite append_empty_r|]; reflexivity. Qed.

(** The newest commit leads the log. *)
Lemma gitLogOneline_head (c : Commit) (h : list Commit) :
  Contains (gitLogOneline (c :: h)) (subject c) = true.
Proof.
  unfold gitLogOneline. rewrite List.map_cons, concat_empty_cons, append_assoc.
  apply Contains_at_start.
Qed.

Lemma branchOf_setBranch_same (repo b : string) (h : list Commit) (w : World) :
  is_Some (repos w !! repo) -> branchOf (setBranch repo b h w) repo b = h.
Proof.
  intros [r Hr]. unfold setBranch, branchOf. rewrite Hr. simpl.
  rewrite lookup_insert_eq. simpl. rewrite lookup_insert_eq. reflexivity.
Qed.

Lemma branchOf_setBranch_other (repo repo' b : string) (h : list Commit) (w : World) :
  repo <> repo' -> branchOf (setBranch repo b h w) repo' b = branchOf w repo' b.
Proof.
  intros Hne. unfold setBranch, branchOf.
  destruct (repos w !! repo); [|reflexivity].
  simpl. rewrite lookup_insert_ne by exact Hne. reflexivity.
Qed.

Lemma branchOf_missing (repo b : string) (w : World) :
  repos w !! repo = None -> branchOf w repo b = [].
Proof. intros H. unfold branchOf. rewrite H. reflexivity. Qed.

Lemma setBranch_repos_None (repo repo' b : string) (h : list Commit) (w : World) :
  repos w !! repo' = None -> repos (setBranch repo b h w) !! repo' = None.
Proof.
  intros H. unfold setBranch. destruct (repos w !! repo) as [r|] eqn:Hr; [|exact H].
  simpl. destruct (decide (repo = repo')) as [<-|Hne]; [congruence|].
  rewrite lookup_insert_ne by exact Hne. exact H.
Qed.

(** After the commit step the branch in the mirror is the history the
    step produced, or, without a mirror, empty as before. *)
Lemma branchOf_setEnvBranch (e : Environment) (h : list Commit) (w : World) :
  let mirror := mirrorPath w (Source e) in
  branchOf (setEnvBranch e h w) mirror (ID e) = h \/
  branchOf (setEnvBranch e h w) mirror (ID e) = branchOf w mirror (ID e).
Proof.
  intros mirror. unfold setEnvBranch. fold mirror.
  destruct (repos w !! mirror) as [r|] eqn:Hr.
  - left. destruct (decide (Source e = mirror)) as [Heq|Hne].
    + rewrite Heq. apply branchOf_setBranch_same.
      unfold setBranch at 1. rewrite Hr. simpl. rewrite lookup_insert_eq. eauto.
    + rewrite branchOf_setBranch_other by exact Hne.
      apply branchOf_setBranch_same. eauto.
  - right. rewrite !branchOf_missing; [reflexivity | exact Hr |].
    apply setBranch_repos_None. apply setBranch_repos_None. exact Hr.
Qed.

Lemma commitEnvironment_branch (e : Environment) (name explanation : string)
    (committed : bool) (w w' : World) :
  commitEnvironment name explanation e w = Ok (committed, w') ->
  let before := branchOf w (mirrorPath w (Source e)) (ID e) in
  let after := branchOf w' (mirrorPath w (Source e)) (ID e) in
  after = before \/ exists c, after = c :: before /\ subject c = name.
Proof.
  unfold commitEnvironment, gitDirOf. intros H.
  inv_bind H. inv_bind H. injection H as _ <-.
  destruct (host w !! Worktree e) as [d|]; [|discriminate].
  injection Hstep as <-.
  apply commitWorktreeChanges_commit_not_empty in Hstep0; [|reflexivity].
  simpl in Hstep0. cbv zeta.
  destruct (branchOf_setEnvBranch e (commits a0) w) as [Hset|Hset]; rewrite Hset.
  - destruct Hstep0 as [->|(c & -> & Hsub & _)]; [left; reflexivity|].
    right. exists c. split; [reflexivity | exact Hsub].
  - left. reflexivity.
Qed.

Lemma setBranch_configDir (repo b : string) (h : list Commit) (w : World) :
  configDir (setBranch repo b h w) = configDir w.
Proof. unfold setBranch. destruct (repos w !! repo); reflexivity. Qed.

Lemma commitEnvironment_configDir (e : Environment) (name explanation : string)
    (committed : bool) (w w' : World) :
  commitEnvironment name explanation e w = Ok (committed, w') ->
  configDir w' = configDir w.
Proof.
  unfold commitEnvironment. intros H.
  inv_bind H. inv_bind H. injection H as _ <-.
  unfold setEnvBranch. rewrite !setBranch_configDir. reflexivity.
Qed.

(** A [FileWrite] that moves the branch puts [Write <path>] on top of
    its log. *)
Lemma FileWrite_log (x f c : string) (e e' : Environment) (w w' : World) :
  FileWrite x f c e w = Ok (e', w') ->
  branchOf w' (mirrorPath w' (Source e')) (ID e')
    <> branchOf w (mirrorPath w (Source e)) (ID e) ->
  gitLogContains ("Write " +:+ f) e' w' = true.
Proof.
  unfold FileWrite. intros H.
  destruct (traverses f); [discriminate|].
  destruct (host w !! Worktree e) as [d|]; [|discriminate].
  inv_bind H. destruct a as [committed w2]. injection H as <- <-.
  unfold gitLogContains. cbn [Source ID withHistory].
  set (w1 := match belowWorkdir (inContainer f) with
             | Some rel => setHost (Worktree e) (putFile rel c d) w
             | None => w
             end) in *.
  assert (Hsame : configDir w1 = configDir w /\ repos w1 = repos w).
  { subst w1. destruct (belowWorkdir (inContainer f)); split; reflexivity. }
  destruct Hsame as (Hc1 & Hr1).
  pose proof (commitEnvironment_configDir _ _ _ _ _ _ Hstep) as Hc2.
  apply commitEnvironment_branch in Hstep. cbv zeta in Hstep.
  unfold mirrorPath in *. rewrite Hc2, Hc1. rewrite Hc1 in Hstep.
  assert (Hb1 : forall repo b, branchOf w1 repo b = branchOf w repo b).
  { intros repo b. unfold branchOf. rewrite Hr1. reflexivity. }
  rewrite Hb1 in Hstep.
  intros Hmoved. destruct Hstep as [Heq|(cm & Heq & Hsub)]; [contradiction|].
  rewrite Heq, <- Hsub. apply gitLogOneline_head.
Qed.

(** ** Isolation of environments *)

(** C4.  For two distinct environments of one source repository, each
    at the worktree path its ID gives it, a successful mutating
    operation on one (FileWrite, Run, SetEnv, Update or Upload) leaves
    the other's worktree on disk and its branch in the mirror and in
    the source repository as they were, so its log answers every
    pattern as before; and a [FileWrite] that moves the branch of its
    own environment puts [Write <path>] into that branch's log.  In the
    scenario, after [FileWrite(dev, "config.dev.json", ...)] the read
    of [config.dev.json] in staging is [NotFound], the log of dev's
    branch contains [Write config.dev.json] and the log of staging's
    branch does not. *)
Theorem operation_leaves_other_environment_unchanged :
  (forall (op : Operation) (w w' : World) (dev dev' staging : Environment),
      Source dev = Source staging ->
      ID dev <> ID staging ->
      ID dev <> "" -> ID staging <> "" ->
      Worktree dev = GetWorktreePath dev w ->
      Worktree staging = GetWorktreePath staging w ->
      perform op dev w = Ok (dev', w') ->
      observed w' staging = observed w staging /\
      forall pattern : string,
        gitLogContains pattern staging w' = gitLogContains pattern staging w) /\
  (forall (explanation path contents : string) (w w' : World) (dev dev' : Environment),
      FileWrite explanation path contents dev w = Ok (dev', w') ->
      branchOf w' (mirrorPath w' (Source dev')) (ID dev')
        <> branchOf w (mirrorPath w (Source dev)) (ID dev) ->
      gitLogContains ("Write " +:+ path) dev' w' = true) /\
  (exists logDev logStaging : string,
      isolationScenario = Ok (Err NotFound, logDev, logStaging) /\
      Contains logDev "Write config.dev.json" = true /\
      Contains logStaging "Write config.dev.json" = false).
Proof.
  split; [|split].
  - intros op w w' dev dev' staging Hsrc Hid Hd Hs Hwd Hws Hop.
    assert (Hwt : Worktree dev <> Worktree staging).
    { rewrite Hwd, Hws. unfold GetWorktreePath. rewrite Hsrc.
      intros Heq. apply Hid. eapply worktreePath_inj; eassumption. }
    pose proof (perform_untouched op dev dev' staging w w' Hid Hwt Hop) as Hun.
    split; [apply untouched_observed; exact Hun|].
    intros pattern. unfold gitLogContains, mirrorPath.
    destruct Hun as (Hc & _ & Hb). rewrite Hc, Hb. reflexivity.
  - intros explanation path contents w w' dev dev' Hwrite Hmoved.
    eapply FileWrite_log; eassumption.
  - exists ("Write config.dev.json" +:+ newline +:+ "Initial Python project" +:+ newline),
           ("Initial Python project" +:+ newline).
    split; [|split]; vm_compute; reflexivity.
Qed.

(** C4 on the two environments of the scenario. *)
Lemma operation_leaves_other_environment_unchanged_witness :
  let dev := fst (fst (orElse isolationSetup (noEnvironment, noEnvironment, noWorld))) in
  let staging := snd (fst (orElse isolationSetup (noEnvironment, noEnvironment, noWorld))) in
  let w := snd (orElse isolationSetup (noEnvironment, noEnvironment, noWorld)) in
  let w' := snd (orElse (FileWrite "Dev config" "config.dev.json" devConfig dev w) (dev, w)) in
  ID dev = "dev/happy-otter" /\ ID staging = "staging/brave-lynx" /\
  observed w' staging = observed w staging.
Proof.
  intros dev staging w w'.
  split; [vm_compute; reflexivity|]. split; [vm_compute; reflexivity|].
  apply (proj1 operation_leaves_other_environment_unchanged
           (OpFileWrite "Dev config" "config.dev.json" devConfig) w w' dev
           (fst (orElse (FileWrite "Dev config" "config.dev.json" devConfig dev w) (dev, w)))
           staging).
  - vm_compute; reflexivity.
  - vm_compute; discriminate.
  - vm_compute; discriminate.
  - vm_compute; discriminate.
  - vm_compute; reflexivity.
  - vm_compute; reflexivity.
  - vm_compute; reflexivity.
Defined.

(** ** Rebuilds and uploads through the memoized host directory *)

(** C1 on the model of the engine as the code has it.  In the rebuild
    scenario the script prints Version 1 before the rebuild; after
    [FileWrite] of Version 2 and [Update] the rebuilt container holds
    the worktree as it was first loaded, and [sh script.sh] does not
    print Version 2.  In the upload scenario the second [Upload] of the
    rewritten directory leaves the first content in the container. *)
Theorem rebuild_and_upload_see_first_snapshot :
  (exists before after : string,
      rebuildScenario = Ok (before, after) /\
      Contains before "Version 1" = true /\
      Contains after "Version 2" = false) /\
  (exists first second : string,
      uploadScenario = Ok (Ok first, Ok second) /\
      Contains first "Version 1" = true /\
      Contains second "Version 1" = true /\
      Contains second "Version 2" = false).
Proof.
  split.
  - exists ("Version 1" +:+ newline),
           ("sh: 0: cannot open script.sh: No such file" +:+ newline).
    split; [|split]; vm_compute; reflexivity.
  - exists "console.log('Version 1');", "console.log('Version 1');".
    split; [|split; [|split]]; vm_compute; reflexivity.
Qed.

(** The memo is what makes the difference: a load of a path never seen
    reads the disk, a second load answers as the first did whatever the
    disk holds by then. *)
Lemma hostDirectory_first_load (path : string) (d : Dir) (w : World) :
  hostDirMemo w !! path = None -> host w !! path = Some d ->
  exists w', hostDirectory path w = Ok (d, w') /\ hostDirMemo w' !! path = Some d.
Proof.
  intros Hm Hh. unfold hostDirectory. rewrite Hm, Hh.
  eexists. split; [reflexivity|]. simpl. apply lookup_insert_eq.
Qed.

Lemma hostDirectory_memoized (path : string) (d d' : Dir) (w : World) :
  hostDirMemo w !! path = Some d ->
  hostDirectory path (setHost path d' w) = Ok (d, setHost path d' w).
Proof. intros Hm. unfold hostDirectory. simpl. rewrite Hm. reflexivity. Qed.

(** ** Environment variables across a rebuild *)

(** C3 on the model of [Update] as the code has it.  After [SetEnv] the
    variables are exported: the command prints their values.  After
    [Update] with the same base image and setup commands and nil env,
    the same command prints them empty. *)
Theorem env_is_not_exported_after_update :
  exists before after : string,
    envvarScenario = Ok (before, after) /\
    Contains before "API_URL=https://api.example.com" = true /\
    Contains before "NODE_ENV=production" = true /\
    Contains before "PORT=3000" = true /\
    Contains after "API_URL=https://api.example.com" = false /\
    Contains after "NODE_ENV=production" = false /\
    Contains after "PORT=3000" = false.
Proof.
  exists ("API_URL=https://api.example.com NODE_ENV=production PORT=3000" +:+ newline),
         ("API_URL= NODE_ENV= PORT=" +:+ newline).
  repeat (split; [vm_compute; reflexivity|]). vm_compute; reflexivity.
Qed.

(** ** Committing a binary-only directory *)

(** C6 on the model.  With only empty directories in the worktree
    (TestEmptyDirectoryHandling) [commitWorktreeChanges] succeeds and
    makes no commit.  With a new directory that holds binary files only
    (TestSystemHandlesProblematicFiles, BinaryDirectories) staging
    stages nothing either, but the status still lists the untracked
    directory, the commit is attempted, and the operation fails with a
    git error. *)
Theorem commit_fails_on_binary_only_directory :
  (exists g, commitWorktreeChanges "Test" "Empty dirs" emptyDirectories = Ok g
             /\ commits g = commits emptyDirectories) /\
  index (addNonBinaryFiles binaryOnlyDirectory) = headTree binaryOnlyDirectory /\
  GitStatus (addNonBinaryFiles binaryOnlyDirectory) = "?? __pycache__/" +:+ newline /\
  commitWorktreeChanges "Run mkdir -p __pycache__" "Create binary directory" binaryOnlyDirectory
  = Err (GitError ("?? __pycache__/" +:+ newline +:+ "nothing added to commit")).
Proof.
  split; [|split; [|split]].
  - exists (addNonBinaryFiles emptyDirectories).
    apply commitWorktreeChanges_clean. vm_compute. reflexivity.
  - vm_compute. reflexivity.
  - vm_compute. reflexivity.
  - vm_compute. reflexivity.
Qed.

End EnvironmentFacts.


(* ===================================================================== *)
(** * Further properties of log.go *)
(* ===================================================================== *)

Module LogProperties.

Import slog Main MainFacts.

(** The clause of the [switch] that answers, with the clauses before it
    that did not. *)
Lemma parseLogLevel_clause (s : string) :
  (s ∈ ["debug"; "DEBUG"] /\ parseLogLevel s = LevelDebug) \/
  (s ∈ ["info"; "INFO"] /\ parseLogLevel s = LevelInfo) \/
  (s ∈ ["warn"; "WARN"; "warning"; "WARNING"] /\ parseLogLevel s = LevelWarn) \/
  (s ∈ ["error"; "ERROR"] /\ parseLogLevel s = LevelError) \/
  ((s ∉ ["debug"; "DEBUG"]) /\ (s ∉ ["info"; "INFO"]) /\
   (s ∉ ["warn"; "WARN"; "warning"; "WARNING"]) /\ (s ∉ ["error"; "ERROR"]) /\
   parseLogLevel s = LevelInfo).
Proof.
  unfold parseLogLevel.
  destruct (switch_case s ["debug"; "DEBUG"]) eqn:Hd.
  { left. split; [apply switch_case_elem; exact Hd | reflexivity]. }
  destruct (switch_case s ["info"; "INFO"]) eqn:Hi.
  { right; left. split; [apply switch_case_elem; exact Hi | reflexivity]. }
  destruct (switch_case s ["warn"; "WARN"; "warning"; "WARNING"]) eqn:Hw.
  { right; right; left. split; [apply switch_case_elem; exact Hw | reflexivity]. }
  destruct (switch_case s ["error"; "ERROR"]) eqn:He.
  { right; right; right; left. split; [apply switch_case_elem; exact He | reflexivity]. }
  right; right; right; right.
  repeat (split; [intros Hin; apply switch_case_elem in Hin; congruence|]).
  reflexivity.
Qed.

(** X1.  Only the listed spellings move the level away from info: each of
    debug, warn and error is answered exactly for its own spellings,
    info for every other string, and no fifth level exists. *)
Theorem parseLogLevel_exactly_named (s : string) :
  (parseLogLevel s = LevelDebug <-> s ∈ ["debug"; "DEBUG"]) /\
  (parseLogLevel s = LevelWarn <-> s ∈ ["warn"; "WARN"; "warning"; "WARNING"]) /\
  (parseLogLevel s = LevelError <-> s ∈ ["error"; "ERROR"]) /\
  (parseLogLevel s = LevelInfo <->
     s ∉ ["debug"; "DEBUG"; "warn"; "WARN"; "warning"; "WARNING"; "error"; "ERROR"]) /\
  parseLogLevel s ∈ [LevelDebug; LevelInfo; LevelWarn; LevelError].
Proof.
  pose proof (parseLogLevel_clause s) as H.
  unfold LevelDebug, LevelInfo, LevelWarn, LevelError in *.
  rewrite !not_elem_of_cons, !elem_of_cons, !elem_of_nil in *.
  destruct H as [[Hs ->]|[[Hs ->]|[[Hs ->]|[[Hs ->]|(H1 & H2 & H3 & H4 & ->)]]]];
    repeat split; try discriminate; try tauto;
    intuition (subst; try discriminate).
Qed.

(** ** What the level variable cannot do *)

Lemma Getenv_withEnv_other (p : Process) (k k' v : string) :
  k <> k' -> Getenv (withEnv k v p) k' = Getenv p k'.
Proof. intros Hne. unfold Getenv, withEnv. simpl. rewrite lookup_insert_ne by exact Hne. reflexivity. Qed.

Lemma Getenv_withEnv_same (p : Process) (k v : string) :
  Getenv (withEnv k v p) k = v.
Proof. unfold Getenv, withEnv. simpl. rewrite lookup_insert_eq. reflexivity. Qed.

(** X2.  Whatever CU_LOG_LEVEL is set to, a known level or not,
    [setupLogger] returns the same error or success and the installed
    logger writes to the same places; only the handler's level follows
    the value. *)
Theorem setupLogger_level_value_never_fails (p : Process) (v : string) :
  snd (setupLogger (withEnv "CU_LOG_LEVEL" v p)) = snd (setupLogger p) /\
  sinks (handlerWriter (slogDefault (fst (setupLogger (withEnv "CU_LOG_LEVEL" v p)))))
  = sinks (handlerWriter (slogDefault (fst (setupLogger p)))) /\
  (snd (setupLogger p) = None ->
   handlerLevel (slogDefault (fst (setupLogger (withEnv "CU_LOG_LEVEL" v p)))) = parseLogLevel v).
Proof.
  assert (Hfile : Getenv (withEnv "CU_LOG_LEVEL" v p) "CU_STDERR_FILE" = Getenv p "CU_STDERR_FILE")
    by (apply Getenv_withEnv_other; discriminate).
  unfold setupLogger. rewrite Hfile.
  destruct (negb (String.eqb (Getenv p "CU_STDERR_FILE") "")).
  - unfold OpenFile. change (openError (withEnv "CU_LOG_LEVEL" v p)) with (openError p).
    destruct (openError p (Getenv p "CU_STDERR_FILE")) as [err|].
    + split; [reflexivity|]. split; [reflexivity|]. discriminate.
    + split; [reflexivity|]. split; [reflexivity|]. intros _.
      cbn [fst]. unfold installLogger. cbn [slogDefault handlerLevel].
      unfold Getenv. cbn [environ withEnv]. rewrite lookup_insert_eq. reflexivity.
  - split; [reflexivity|]. split; [reflexivity|]. intros _.
    cbn [fst]. rewrite installLogger_level. rewrite Getenv_withEnv_same. reflexivity.
Qed.

Lemma setupLogger_level_value_never_fails_witness :
  snd (setupLogger (withEnv "CU_LOG_LEVEL" "verbose" quietProcess)) = None /\
  handlerLevel (slogDefault (fst (setupLogger (withEnv "CU_LOG_LEVEL" "error" quietProcess))))
  = LevelError.
Proof.
  split.
  - rewrite (proj1 (setupLogger_level_value_never_fails quietProcess "verbose")). reflexivity.
  - apply (proj2 (proj2 (setupLogger_level_value_never_fails quietProcess "error"))). reflexivity.
Defined.

(** ** Where a successful setup sends the log *)

(** X3.  After a successful [setupLogger] the default logger writes to
    stderr alone when CU_STDERR_FILE is unset or empty, and to stderr
    first and the named file second when it is set; [logWriter] is the
    very writer the default logger uses; [globalLog] is the opened file,
    and is left as it was when no file is configured. *)
Theorem setupLogger_sinks_exactly (p : Process) :
  snd (setupLogger p) = None ->
  let path := Getenv p "CU_STDERR_FILE" in
  let p' := fst (setupLogger p) in
  logWriter p' = Some (handlerWriter (slogDefault p')) /\
  (path = "" ->
     sinks (handlerWriter (slogDefault p')) = [SinkStderr] /\ globalLog p' = globalLog p) /\
  (path <> "" ->
     sinks (handlerWriter (slogDefault p')) = [SinkStderr; SinkFile path] /\
     globalLog p' = Some {| fileName := path |}).
Proof.
  intros Hnil path p'. subst path p'.
  destruct (String.eqb_spec (Getenv p "CU_STDERR_FILE") "") as [He|Hne].
  - rewrite (setupLogger_no_file p He). cbn [fst].
    split; [reflexivity|]. split; [intros _; split; reflexivity|].
    intros H. contradiction.
  - destruct (openError p (Getenv p "CU_STDERR_FILE")) as [err|] eqn:Hopen.
    { rewrite (setupLogger_open_fails p err Hne Hopen) in Hnil. discriminate. }
    unfold setupLogger, OpenFile. apply String.eqb_neq in Hne as Hneb.
    rewrite Hneb, Hopen. cbn [negb fst].
    split; [reflexivity|]. split; [intros H; contradiction|].
    intros _. split; reflexivity.
Qed.

Lemma setupLogger_sinks_exactly_witness :
  sinks (handlerWriter (slogDefault (fst (setupLogger
    (withEnv "CU_STDERR_FILE" "/tmp/cu.debug.stderr.log" quietProcess)))))
  = [SinkStderr; SinkFile "/tmp/cu.debug.stderr.log"].
Proof.
  apply (setupLogger_sinks_exactly
           (withEnv "CU_STDERR_FILE" "/tmp/cu.debug.stderr.log" quietProcess)).
  - vm_compute. reflexivity.
  - vm_compute. discriminate.
Defined.

(** ** Which records the installed logger lets through *)

(** X4.  After a successful [setupLogger] a record is dropped exactly when
    its level is below the level CU_LOG_LEVEL names (info when it names
    none), and a record that is not dropped reaches stderr. *)
Theorem setupLogger_threshold (p : Process) (lvl : Level) (line : string) :
  snd (setupLogger p) = None ->
  (emit (slogDefault (fst (setupLogger p))) lvl line = []
   <-> (lvl < parseLogLevel (Getenv p "CU_LOG_LEVEL"))%Z) /\
  (emit (slogDefault (fst (setupLogger p))) lvl line <> [] ->
   (SinkStderr, line) ∈ emit (slogDefault (fst (setupLogger p))) lvl line).
Proof.
  intros Hnil.
  destruct (setupLogger_success p Hnil) as (p1 & ws & Heq & Henv).
  rewrite Heq. unfold emit. rewrite installLogger_level.
  assert (Hg : Getenv p1 "CU_LOG_LEVEL" = Getenv p "CU_LOG_LEVEL")
    by (unfold Getenv; rewrite Henv; reflexivity).
  rewrite Hg.
  destruct (Z.leb_spec (parseLogLevel (Getenv p "CU_LOG_LEVEL")) lvl) as [Hle|Hlt].
  - split.
    + split; [|lia]. cbn. discriminate.
    + intros _. cbn. apply list_elem_of_here.
  - split; [split; [intros _; exact Hlt | reflexivity]|].
    intros H. contradiction.
Qed.

Lemma setupLogger_threshold_witness :
  emit (slogDefault (fst (setupLogger quietProcess))) LevelDebug "starting" = [] /\
  (SinkStderr, "ready") ∈ emit (slogDefault (fst (setupLogger quietProcess))) LevelInfo "ready".
Proof.
  split.
  - apply (proj1 (setupLogger_threshold quietProcess LevelDebug "starting" eq_refl)).
    vm_compute. reflexivity.
  - apply (proj2 (setupLogger_threshold quietProcess LevelInfo "ready" eq_refl)).
    vm_compute. discriminate.
Defined.

(** ** Setting up twice *)

(** X5.  A second [setupLogger], on the state the first one left and
    with the answers opening a file gives by then.  It succeeds exactly
    when no file is configured or the file opens this time, whatever
    the first call returned; when it succeeds it installs the level and
    the sinks the environment names, which are those of the first call
    if that succeeded too; when it fails, also after a first call that
    succeeded, the logger, the writer and the file of the first call
    stay in place. *)
Theorem setupLogger_again (p : Process) (answers : string -> option string) :
  let first := fst (setupLogger p) in
  let second := setupLogger (later answers first) in
  let path := Getenv p "CU_STDERR_FILE" in
  (snd second = None <-> path = "" \/ answers path = None) /\
  (snd second = None ->
     handlerLevel (slogDefault (fst second)) = parseLogLevel (Getenv p "CU_LOG_LEVEL") /\
     sinks (handlerWriter (slogDefault (fst second)))
     = if String.eqb path "" then [SinkStderr] else [SinkStderr; SinkFile path]) /\
  (snd (setupLogger p) = None -> snd second = None ->
     slogDefault (fst second) = slogDefault first) /\
  (snd second <> None ->
     slogDefault (fst second) = slogDefault first /\
     logWriter (fst second) = logWriter first /\
     globalLog (fst second) = globalLog first).
Proof.
  cbv zeta.
  assert (Henv : environ (later answers (fst (setupLogger p))) = environ p).
  { unfold later. cbn [environ]. unfold setupLogger, OpenFile.
    destruct (negb (String.eqb (Getenv p "CU_STDERR_FILE") "")); [|reflexivity].
    destruct (openError p (Getenv p "CU_STDERR_FILE")); reflexivity. }
  set (q := later answers (fst (setupLogger p))) in *.
  assert (Hfile : Getenv q "CU_STDERR_FILE" = Getenv p "CU_STDERR_FILE")
    by (unfold Getenv; rewrite Henv; reflexivity).
  assert (Hlevel : Getenv q "CU_LOG_LEVEL" = Getenv p "CU_LOG_LEVEL")
    by (unfold Getenv; rewrite Henv; reflexivity).
  assert (Hopen : openError q = answers) by reflexivity.
  assert (Hlog : slogDefault q = slogDefault (fst (setupLogger p)) /\
                 logWriter q = logWriter (fst (setupLogger p)) /\
                 globalLog q = globalLog (fst (setupLogger p)))
    by (split; [|split]; reflexivity).
  destruct (String.eqb_spec (Getenv p "CU_STDERR_FILE") "") as [He|Hne].
  - (* no file is configured *)
    assert (He' : Getenv q "CU_STDERR_FILE" = "") by congruence.
    rewrite (setupLogger_no_file q He'). cbn [fst snd].
    split; [split; [intros _; left; exact He | reflexivity]|].
    split; [intros _; rewrite installLogger_level, Hlevel; split; reflexivity|].
    split; [|intros H; contradiction].
    intros _ _. rewrite (setupLogger_no_file p He). cbn [fst].
    unfold installLogger. cbn [slogDefault]. rewrite Hlevel. reflexivity.
  - assert (Hne' : Getenv q "CU_STDERR_FILE" <> "") by congruence.
    destruct (answers (Getenv p "CU_STDERR_FILE")) as [err|] eqn:Hans.
    + (* the file does not open this time *)
      assert (Hq : openError q (Getenv q "CU_STDERR_FILE") = Some err)
        by (rewrite Hopen, Hfile; exact Hans).
      rewrite (setupLogger_open_fails q err Hne' Hq). cbn [fst snd].
      split; [split; [discriminate | intros [H|H]; [contradiction | discriminate]]|].
      split; [discriminate|]. split; [discriminate|].
      intros _. exact Hlog.
    + (* the file opens this time *)
      assert (Hq : openError q (Getenv q "CU_STDERR_FILE") = None)
        by (rewrite Hopen, Hfile; exact Hans).
      destruct (setupLogger_open_ok q Hne' Hq) as (q1 & -> & Hq1). cbn [fst snd].
      assert (Hlevel1 : Getenv q1 "CU_LOG_LEVEL" = Getenv p "CU_LOG_LEVEL")
        by (unfold Getenv; rewrite Hq1, Henv; reflexivity).
      split; [split; [intros _; right; reflexivity | reflexivity]|].
      split; [intros _; rewrite installLogger_level, Hlevel1, Hfile; split; reflexivity|].
      split; [|intros H; contradiction].
      intros Hfirst _.
      destruct (openError p (Getenv p "CU_STDERR_FILE")) as [err|] eqn:Hp.
      { rewrite (setupLogger_open_fails p err Hne Hp) in Hfirst. discriminate. }
      destruct (setupLogger_open_ok p Hne Hp) as (p1 & -> & Hp1). cbn [fst].
      unfold installLogger. cbn [slogDefault].
      assert (Hlevel2 : Getenv p1 "CU_LOG_LEVEL" = Getenv p "CU_LOG_LEVEL")
        by (unfold Getenv; rewrite Hp1; reflexivity).
      rewrite Hlevel1, Hlevel2, Hfile. reflexivity.
Qed.

(** The first call makes the log file and succeeds; by the second call
    the file cannot be opened for writing (a umask that leaves it
    read-only): the second call fails, and the logger of the first
    call, writing to stderr and to the file, is still the default. *)
Lemma setupLogger_again_witness :
  let p := withEnv "CU_STDERR_FILE" "/tmp/cu.debug.stderr.log" quietProcess in
  let denied name := if String.eqb name "/tmp/cu.debug.stderr.log"
                     then Some "permission denied" else None in
  snd (setupLogger p) = None /\
  snd (setupLogger (later denied (fst (setupLogger p)))) <> None /\
  sinks (handlerWriter (slogDefault (fst (setupLogger (later denied (fst (setupLogger p)))))))
  = [SinkStderr; SinkFile "/tmp/cu.debug.stderr.log"].
Proof.
  intros p denied.
  assert (Hfails : snd (setupLogger (later denied (fst (setupLogger p)))) <> None)
    by (vm_compute; discriminate).
  split; [vm_compute; reflexivity|]. split; [exact Hfails|].
  rewrite (proj1 (proj2 (proj2 (proj2 (setupLogger_again p denied))) Hfails)).
  vm_compute. reflexivity.
Defined.

End LogProperties.


(* ===================================================================== *)
(** * Properties of the test helpers *)
(* ===================================================================== *)

Module TestHelperProperties.

Import slog environment.

(** ** Logging in the tests *)

(** X6.  The [init] of the test package logs to stderr only, whatever
    CU_STDERR_FILE and CU_LOG_LEVEL say: debug records are never
    written, warnings and errors always, and info records exactly when
    TEST_VERBOSE is set to a non-empty value. *)
Theorem init_logs_warnings_unless_verbose (p : Main.Process) (line : string) :
  Main.sinks (Main.handlerWriter (Main.slogDefault (init p))) = [Main.SinkStderr] /\
  Main.emit (Main.slogDefault (init p)) LevelDebug line = [] /\
  Main.emit (Main.slogDefault (init p)) LevelWarn line = [(Main.SinkStderr, line)] /\
  Main.emit (Main.slogDefault (init p)) LevelError line = [(Main.SinkStderr, line)] /\
  (Main.emit (Main.slogDefault (init p)) LevelInfo line = [(Main.SinkStderr, line)]
   <-> Main.Getenv p "TEST_VERBOSE" <> "") /\
  (Main.emit (Main.slogDefault (init p)) LevelInfo line = []
   <-> Main.Getenv p "TEST_VERBOSE" = "").
Proof.
  unfold init, Main.emit. cbn [Main.slogDefault Main.handlerLevel Main.handlerWriter Main.sinks].
  destruct (String.eqb_spec (Main.Getenv p "TEST_VERBOSE") "") as [He|Hne]; cbn.
  - repeat split; try reflexivity; try discriminate; try contradiction; auto.
  - repeat split; try reflexivity; try discriminate; try contradiction; auto.
Qed.

(** ** The configuration directory variable around a test *)

Lemma Getenv_Setenv (p : Main.Process) (k k' v : string) :
  Main.Getenv (Setenv k v p) k' = if decide (k = k') then v else Main.Getenv p k'.
Proof.
  unfold Main.Getenv, Setenv. cbn [Main.environ].
  rewrite lookup_insert. destruct (decide (k = k')); reflexivity.
Qed.

Lemma Getenv_Unsetenv (p : Main.Process) (k k' : string) :
  Main.Getenv (Unsetenv k p) k' = if decide (k = k') then "" else Main.Getenv p k'.
Proof.
  unfold Main.Getenv, Unsetenv. cbn [Main.environ].
  rewrite lookup_delete. destruct (decide (k = k')); reflexivity.
Qed.

(** What [os.Getenv] reads after the cleanup, given the remembered
    value. *)
Lemma Getenv_cleanup (old : string) (p : Main.Process) (k : string) :
  Main.Getenv (NewTestEnv_cleanup old p) k
  = if decide (configDirVar = k) then old else Main.Getenv p k.
Proof.
  unfold NewTestEnv_cleanup.
  destruct (String.eqb_spec old "") as [->|Hne].
  - apply Getenv_Unsetenv.
  - apply Getenv_Setenv.
Qed.

Lemma environ_cleanup (old : string) (p : Main.Process) :
  Main.environ (NewTestEnv_cleanup old p)
  = if String.eqb old "" then delete configDirVar (Main.environ p)
    else <[configDirVar := old]> (Main.environ p).
Proof. unfold NewTestEnv_cleanup. destruct (String.eqb old ""); reflexivity. Qed.

(** X7.  [NewTestEnv] points CONTAINER_USE_CONFIG_DIR at the temporary
    directory and touches no other variable; its cleanup makes
    [os.Getenv] read every variable as before the test.  The
    environment itself is restored exactly unless the variable was set
    to the empty string before: then it ends up unset. *)
Theorem NewTestEnv_restores_config_dir (configDir : string) (p : Main.Process) :
  let during := snd (NewTestEnv_setenv configDir p) in
  let after := NewTestEnv_cleanup (fst (NewTestEnv_setenv configDir p)) during in
  Main.Getenv during configDirVar = configDir /\
  (forall k, k <> configDirVar -> Main.environ during !! k = Main.environ p !! k) /\
  (forall k, Main.Getenv after k = Main.Getenv p k) /\
  (forall k, k <> configDirVar -> Main.environ after !! k = Main.environ p !! k) /\
  (Main.environ p !! configDirVar <> Some "" -> Main.environ after = Main.environ p) /\
  (Main.environ p !! configDirVar = Some "" ->
   Main.environ after = delete configDirVar (Main.environ p)).
Proof.
  cbv zeta. unfold NewTestEnv_setenv. cbn [fst snd].
  split; [rewrite Getenv_Setenv; rewrite decide_True by reflexivity; reflexivity|].
  split.
  { intros k Hk. unfold Setenv. cbn [Main.environ]. apply lookup_insert_ne. congruence. }
  split.
  { intros k. rewrite Getenv_cleanup, Getenv_Setenv.
    destruct (decide (configDirVar = k)) as [<-|Hne]; reflexivity. }
  rewrite !environ_cleanup. unfold Setenv. cbn [Main.environ].
  destruct (Main.environ p !! configDirVar) as [old|] eqn:Hold.
  - assert (Hget : Main.Getenv p configDirVar = old)
      by (unfold Main.Getenv; rewrite Hold; reflexivity).
    rewrite Hget.
    destruct (String.eqb_spec old "") as [->|Hne].
    + split.
      { intros k Hk. rewrite lookup_delete_ne by congruence. apply lookup_insert_ne. congruence. }
      split; [intros H; contradiction|].
      intros _. apply delete_insert_eq.
    + split.
      { intros k Hk. rewrite !lookup_insert_ne by congruence. reflexivity. }
      split.
      * intros _. rewrite insert_insert_eq. apply insert_id. exact Hold.
      * intros H. congruence.
  - assert (Hget : Main.Getenv p configDirVar = "")
      by (unfold Main.Getenv; rewrite Hold; reflexivity).
    rewrite Hget. cbn [String.eqb].
    split.
    { intros k Hk. rewrite lookup_delete_ne by congruence. apply lookup_insert_ne. congruence. }
    split; [|discriminate].
    intros _. rewrite delete_insert_eq. apply delete_id. exact Hold.
Qed.

(** X8.  Two test environments in one test (CrossRepositoryConfusion): while
    both live the variable names the second one's directory; cleanups
    run last-registered first, and then every variable reads as before
    the first [NewTestEnv]; run in the other order they would leave the
    variable at the first test environment's directory. *)
Theorem NewTestEnv_nested_cleanup (config1 config2 : string) (p : Main.Process) :
  let old1 := fst (NewTestEnv_setenv config1 p) in
  let p1 := snd (NewTestEnv_setenv config1 p) in
  let old2 := fst (NewTestEnv_setenv config2 p1) in
  let p2 := snd (NewTestEnv_setenv config2 p1) in
  old2 = config1 /\
  Main.Getenv p2 configDirVar = config2 /\
  (forall k, Main.Getenv (NewTestEnv_cleanup old1 (NewTestEnv_cleanup old2 p2)) k
             = Main.Getenv p k) /\
  Main.Getenv (NewTestEnv_cleanup old2 (NewTestEnv_cleanup old1 p2)) configDirVar = config1.
Proof.
  cbv zeta. unfold NewTestEnv_setenv. cbn [fst snd].
  assert (H1 : Main.Getenv (Setenv configDirVar config1 p) configDirVar = config1).
  { rewrite Getenv_Setenv. rewrite decide_True by reflexivity. reflexivity. }
  split; [exact H1|].
  split; [rewrite Getenv_Setenv; rewrite decide_True by reflexivity; reflexivity|].
  split.
  - intros k. rewrite !Getenv_cleanup, !Getenv_Setenv.
    destruct (decide (configDirVar = k)) as [<-|Hne]; reflexivity.
  - rewrite Getenv_cleanup. rewrite decide_True by reflexivity. exact H1.
Qed.

(** ** The content of a binary test file *)

Lemma length_string_of_list_ascii (l : list ascii) :
  String.length (string_of_list_ascii l) = List.length l.
Proof. induction l as [|a l IH]; simpl; [reflexivity | rewrite IH; reflexivity]. Qed.

Lemma get_string_of_list_ascii (l : list ascii) (i : nat) :
  String.get i (string_of_list_ascii l) = l !! i.
Proof.
  revert i. induction l as [|a l IH]; intros i; simpl.
  - destruct i; reflexivity.
  - destruct i; simpl; [reflexivity | apply IH].
Qed.

Lemma lookup_map_seq {A} (f : nat -> A) (n start i : nat) :
  (i < n)%nat -> List.map f (seq start n) !! i = Some (f (start + i)%nat).
Proof.
  revert start i. induction n as [|n IH]; intros start i Hi; [lia|].
  simpl. destruct i as [|i]; simpl.
  - rewrite Nat.add_0_r. reflexivity.
  - rewrite IH by lia. f_equal. f_equal. lia.
Qed.

(** X9.  [WriteBinaryFile] writes exactly [size] bytes, and the byte at
    offset [i] has the value [i mod 256]: the content counts from 0 to
    255 and starts over. *)
Theorem binaryContent_counts_bytes (size : nat) :
  String.length (binaryContent size) = size /\
  (forall i : nat, (i < size)%nat ->
     nat_of_ascii <$> String.get i (binaryContent size) = Some (i mod 256)%nat) /\
  (forall i : nat, (size <= i)%nat -> String.get i (binaryContent size) = None).
Proof.
  unfold binaryContent. split; [|split].
  - rewrite length_string_of_list_ascii, List.length_map, List.length_seq. reflexivity.
  - intros i Hi. rewrite get_string_of_list_ascii, (lookup_map_seq _ size 0 i Hi).
    rewrite Nat.add_0_l. cbn [fmap option_fmap option_map]. f_equal.
    apply nat_ascii_embedding, Nat.mod_upper_bound. discriminate.
  - intros i Hi. rewrite get_string_of_list_ascii. apply lookup_ge_None.
    rewrite List.length_map, List.length_seq. exact Hi.
Qed.

Lemma binaryContent_counts_bytes_witness :
  nat_of_ascii <$> String.get 300 (binaryContent 1024) = Some 44%nat.
Proof.
  apply (proj1 (proj2 (binaryContent_counts_bytes 1024)) 300%nat). lia.
Defined.

Lemma hasNul_empty (n : nat) : hasNul n "" = false.
Proof. destruct n; reflexivity. Qed.

Lemma hasNul_first (n : nat) (rest : string) :
  n <> 0%nat -> hasNul n (String (ascii_of_nat (0 mod 256)) rest) = true.
Proof. destruct n; [contradiction | reflexivity]. Qed.

(** X10.  A file written by [WriteBinaryFile] is binary for git's content
    sniff exactly when it is not empty: the first byte is NUL.  With
    size 0 the helper writes an empty file, which is not binary. *)
Theorem binaryContent_binary_unless_empty (size : nat) :
  isBinary (binaryContent size) = true <-> size <> 0%nat.
Proof.
  unfold isBinary. destruct size as [|n].
  - split; [|intros H; contradiction].
    unfold binaryContent. cbn [seq List.map string_of_list_ascii].
    rewrite hasNul_empty. discriminate.
  - split; [intros _; discriminate|]. intros _.
    unfold binaryContent. cbn [seq List.map string_of_list_ascii].
    apply hasNul_first. lia.
Qed.

(** ** Paths below the repository directory *)

Lemma Join_cons (c : string) (rest : list string) :
  rest <> [] -> Join "/" (c :: rest) = c +:+ "/" +:+ Join "/" rest.
Proof. destruct rest; [contradiction | reflexivity]. Qed.

Lemma append_assoc' (a b c : string) : (a +:+ b) +:+ c = a +:+ (b +:+ c).
Proof.
  induction a as [|x a IH]; [reflexivity|].
  exact (f_equal (String x) IH).
Qed.

Lemma append_nonempty_l (a b : string) : a <> "" -> a +:+ b <> "".
Proof. destruct a; [contradiction | discriminate]. Qed.

(** The last directory [os.MkdirAll] makes is the whole path. *)
Lemma dirPrefixes_whole (comps : list string) (acc : string) :
  comps <> [] -> Forall (fun c => c <> "") comps ->
  (if String.eqb acc "" then Join "/" comps else acc +:+ "/" +:+ Join "/" comps)
  ∈ dirPrefixes acc comps.
Proof.
  revert acc. induction comps as [|c rest IH]; intros acc Hne Hall; [contradiction|].
  apply Forall_cons in Hall as [Hc Hrest]. cbn [dirPrefixes].
  destruct rest as [|c' rest'].
  - apply list_elem_of_here.
  - apply list_elem_of_further.
    specialize (IH (if String.eqb acc "" then c else acc +:+ "/" +:+ c)
                   ltac:(discriminate) Hrest).
    rewrite (Join_cons c (c' :: rest')) by discriminate.
    destruct (String.eqb_spec acc "") as [Hacc|Hacc].
    + destruct (String.eqb_spec c "") as [Hc0|_]; [contradiction|]. exact IH.
    + destruct (String.eqb_spec (acc +:+ "/" +:+ c) "") as [He|_].
      { exfalso. exact (append_nonempty_l _ _ Hacc He). }
      rewrite !append_assoc' in IH. exact IH.
Qed.

Lemma components_nonempty (path : string) : Forall (fun c => c <> "") (components path).
Proof.
  unfold components. apply List.Forall_forall. intros c Hin.
  apply List.filter_In in Hin as [_ Hc]. unfold nonEmpty in Hc.
  intros ->. discriminate.
Qed.

(** No word that [strings.Split] returns holds the separator. *)
Lemma Split_words_free (sep : ascii) (s w : string) :
  In w (Split sep s) -> ~ In sep (list_ascii_of_string w).
Proof.
  revert w. induction s as [|c rest IH]; intros w; cbn [Split].
  - intros [<-|[]]. intros [].
  - destruct (Ascii.eqb_spec c sep) as [->|Hc].
    + intros [<-|Hin]; [intros [] | exact (IH w Hin)].
    + destruct (Split sep rest) as [|w0 ws] eqn:Hs.
      * intros [<-|[]]. cbn. intros [H|[]]. congruence.
      * intros [<-|Hin].
        -- cbn. intros [H|H]; [congruence|]. exact (IH w0 (or_introl eq_refl) H).
        -- exact (IH w (or_intror Hin)).
Qed.

Lemma components_slash_free (path : string) :
  Forall (fun w => ~ In "/"%char (list_ascii_of_string w)) (components path).
Proof.
  unfold components. apply List.Forall_forall. intros w Hin.
  apply List.filter_In in Hin as [Hin _]. exact (Split_words_free _ _ _ Hin).
Qed.

Lemma Split_free (sep : ascii) (w : string) :
  ~ In sep (list_ascii_of_string w) -> Split sep w = [w].
Proof.
  induction w as [|c w IH]; intros Hfree; cbn [Split]; [reflexivity|].
  cbn in Hfree.
  destruct (Ascii.eqb_spec c sep) as [->|Hc]; [exfalso; apply Hfree; left; reflexivity|].
  rewrite IH by (intros H; apply Hfree; right; exact H). reflexivity.
Qed.

Lemma Split_append (sep : ascii) (w rest : string) :
  ~ In sep (list_ascii_of_string w) ->
  Split sep (w +:+ String sep rest) = w :: Split sep rest.
Proof.
  induction w as [|c w IH]; intros Hfree.
  - change ("" +:+ String sep rest) with (String sep rest). cbn [Split].
    rewrite Ascii.eqb_refl. reflexivity.
  - change (String c w +:+ String sep rest) with (String c (w +:+ String sep rest)).
    cbn [Split]. cbn in Hfree.
    destruct (Ascii.eqb_spec c sep) as [->|Hc]; [exfalso; apply Hfree; left; reflexivity|].
    rewrite IH by (intros H; apply Hfree; right; exact H). reflexivity.
Qed.

(** [strings.Split] undoes [strings.Join] on words without the
    separator. *)
Lemma Split_Join (cs : list string) :
  cs <> [] -> Forall (fun w => ~ In "/"%char (list_ascii_of_string w)) cs ->
  Split "/"%char (Join "/" cs) = cs.
Proof.
  induction cs as [|c rest IH]; intros Hne Hall; [contradiction|].
  apply Forall_cons in Hall as [Hc Hrest].
  destruct rest as [|c' rest'].
  - apply Split_free. exact Hc.
  - rewrite (Join_cons c (c' :: rest')) by discriminate.
    change ("/" +:+ Join "/" (c' :: rest')) with (String "/"%char (Join "/" (c' :: rest'))).
    rewrite (Split_append _ _ _ Hc). f_equal. apply IH; [discriminate | exact Hrest].
Qed.

Lemma filter_nonEmpty_id (cs : list string) :
  Forall (fun c => c <> "") cs -> List.filter nonEmpty cs = cs.
Proof.
  induction 1 as [|c cs Hc _ IH]; [reflexivity|].
  cbn [List.filter]. unfold nonEmpty at 1.
  destruct (String.eqb_spec c "") as [He|_]; [contradiction|].
  cbn [negb]. rewrite IH. reflexivity.
Qed.

(** The elements of a cleaned path are elements of the path, and none
    of them is [.] or [..]. *)
Lemma cleanFrom_elems (P : string -> Prop) (elems stack r : list string) :
  cleanFrom stack elems = Some r ->
  Forall P stack ->
  Forall (fun e => e <> "." -> e <> ".." -> P e) elems ->
  Forall P r.
Proof.
  revert stack. induction elems as [|e rest IH]; intros stack; cbn [cleanFrom].
  - intros [= <-] Hstack _. apply List.Forall_rev. exact Hstack.
  - intros Hclean Hstack Helems. apply Forall_cons in Helems as [He Hrest].
    destruct (String.eqb_spec e ".") as [_|Hdot]; [exact (IH _ Hclean Hstack Hrest)|].
    destruct (String.eqb_spec e "..") as [_|Hup].
    + destruct stack as [|x above]; [discriminate|].
      apply Forall_cons in Hstack as [_ Habove]. exact (IH _ Hclean Habove Hrest).
    + apply (IH _ Hclean); [|exact Hrest]. constructor; [exact (He Hdot Hup) | exact Hstack].
Qed.

Lemma cleanFrom_plain (elems stack : list string) :
  Forall (fun e => e <> "." /\ e <> "..") elems ->
  cleanFrom stack elems = Some (rev stack ++ elems).
Proof.
  revert stack. induction elems as [|e rest IH]; intros stack Hall; cbn [cleanFrom].
  - rewrite app_nil_r. reflexivity.
  - apply Forall_cons in Hall as [[Hdot Hup] Hrest].
    destruct (String.eqb_spec e ".") as [H|_]; [contradiction|].
    destruct (String.eqb_spec e "..") as [H|_]; [contradiction|].
    rewrite (IH _ Hrest). cbn [rev]. rewrite <- app_assoc. reflexivity.
Qed.

Lemma Clean_elems (path : string) (fullPath : list string) :
  Clean path = Some fullPath ->
  Forall (fun e => e <> "") fullPath /\
  Forall (fun e => ~ In "/"%char (list_ascii_of_string e)) fullPath /\
  Forall (fun e => e <> "." /\ e <> "..") fullPath.
Proof.
  unfold Clean. intros Hclean. split; [|split].
  - apply (cleanFrom_elems _ _ _ _ Hclean); [constructor|].
    eapply Forall_impl; [apply components_nonempty|]. auto.
  - apply (cleanFrom_elems _ _ _ _ Hclean); [constructor|].
    eapply Forall_impl; [apply components_slash_free|]. auto.
  - apply (cleanFrom_elems _ _ _ _ Hclean); [constructor|].
    apply List.Forall_forall. auto.
Qed.

(** Cleaning a cleaned path changes nothing. *)
Lemma Clean_Join (path : string) (fullPath : list string) :
  Clean path = Some fullPath -> Clean (Join "/" fullPath) = Some fullPath.
Proof.
  intros Hclean. destruct (Clean_elems _ _ Hclean) as (Hne & Hfree & Hplain).
  unfold Clean.
  assert (Hcomps : components (Join "/" fullPath) = fullPath).
  { destruct fullPath as [|e rest]; [reflexivity|].
    unfold components. rewrite Split_Join by (discriminate || exact Hfree).
    apply filter_nonEmpty_id. exact Hne. }
  rewrite Hcomps. apply (cleanFrom_plain fullPath [] Hplain).
Qed.

(** Different cleaned paths are different names. *)
Lemma Clean_Join_inj (p q : string) (a b : list string) :
  Clean p = Some a -> Clean q = Some b -> a <> [] -> b <> [] ->
  Join "/" a = Join "/" b -> a = b.
Proof.
  intros Ha Hb Hane Hbne Heq.
  destruct (Clean_elems _ _ Ha) as (_ & Hfa & _).
  destruct (Clean_elems _ _ Hb) as (_ & Hfb & _).
  rewrite <- (Split_Join a Hane Hfa), <- (Split_Join b Hbne Hfb), Heq. reflexivity.
Qed.

(** ** Writing files into the repository *)

Lemma MkdirAll_Some (elems : list string) (d d' : Dir) :
  MkdirAll elems d = Some d' <->
  (forall p, p ∈ dirPrefixes "" elems -> files d !! p = None) /\
  d' = {| files := files d; dirs := dirs d ∪ list_to_set (dirPrefixes "" elems) |}.
Proof.
  unfold MkdirAll.
  destruct (existsb _ (dirPrefixes "" elems)) eqn:Hex.
  - split; [discriminate|]. intros [Hfree _].
    apply existsb_exists in Hex as (p & Hin & Hp).
    apply bool_decide_eq_true in Hp. apply list_elem_of_In in Hin.
    rewrite (Hfree p Hin) in Hp. destruct Hp as [? [=]].
  - split.
    + intros [= <-]. split; [|reflexivity].
      intros p Hin. destruct (files d !! p) eqn:Hp; [|reflexivity].
      assert (Hex' : existsb (fun p => bool_decide (is_Some (files d !! p)))
                             (dirPrefixes "" elems) = true).
      { apply existsb_exists. exists p. split; [apply list_elem_of_In; exact Hin|].
        apply bool_decide_eq_true. rewrite Hp. eauto. }
      congruence.
    + intros [_ ->]. reflexivity.
Qed.

(** When a write returns: the path stays in the repository directory
    and names a file in it, the operating system granted the calls, no
    directory on the way is a regular file, the name is no directory,
    and the repository directory is as before with the directories
    made and the file written. *)
Lemma written_Done (granted : bool) (path content : string) (d d' : Dir) :
  WriteFile granted path content d = Done d' <->
  exists fullPath,
    Clean path = Some fullPath /\ granted = true /\ fullPath <> [] /\
    (forall p, p ∈ dirPrefixes "" (removelast fullPath) -> files d !! p = None) /\
    (Join "/" fullPath ∉ dirs d ∪ list_to_set (dirPrefixes "" (removelast fullPath))) /\
    d' = {| files := <[Join "/" fullPath := content]> (files d);
            dirs := dirs d ∪ list_to_set (dirPrefixes "" (removelast fullPath)) |}.
Proof.
  unfold WriteFile. destruct (Clean path) as [fullPath|]; [|split; [discriminate|]].
  2: { intros (? & [=] & _). }
  destruct granted; cbn [negb].
  2: { split; [discriminate|]. intros (? & _ & [=] & _). }
  destruct (MkdirAll (removelast fullPath) d) as [d1|] eqn:Hmk.
  - apply MkdirAll_Some in Hmk as [Hfree ->].
    unfold osWriteFile. cbn [files dirs].
    destruct fullPath as [|e rest] eqn:Hfull.
    { split; [discriminate|]. intros (? & [= <-] & _ & Hne & _). contradiction. }
    rewrite <- Hfull in *. case_bool_decide as Hdir.
    + split; [discriminate|]. intros (? & [= <-] & _ & _ & _ & Hnot & _). contradiction.
    + split.
      * intros [= <-]. exists fullPath.
        split; [reflexivity|]. split; [reflexivity|]. split; [subst; discriminate|].
        split; [exact Hfree|]. split; [exact Hdir | reflexivity].
      * intros (? & [= <-] & _ & _ & _ & _ & ->). reflexivity.
  - split; [discriminate|]. intros (? & [= <-] & _ & _ & Hfree & _).
    assert (Hsome : MkdirAll (removelast fullPath) d
                    = Some {| files := files d;
                              dirs := dirs d ∪ list_to_set (dirPrefixes "" (removelast fullPath)) |})
      by (apply MkdirAll_Some; split; [exact Hfree | reflexivity]).
    congruence.
Qed.

Lemma WriteBinaryFile_WriteFile (granted : bool) (path : string) (size : nat) (d : Dir) :
  WriteBinaryFile granted path size d = WriteFile granted path (binaryContent size) d.
Proof. reflexivity. Qed.

(** X11.  When [WriteFile] returns, the file reads back with the
    content written, under the cleaned path; every other file is as
    before and no directory is lost.  Every spelling of the path
    ([./main.py] for [main.py]), the cleaned path among them, is the
    same file; a later write to it leaves only the later content; and
    writes to different files give the same repository in either
    order. *)
Theorem WriteFile_laws (granted : bool) (path content : string) (d d' : Dir) :
  WriteFile granted path content d = Done d' ->
  exists fullPath,
    Clean path = Some fullPath /\ fullPath <> [] /\
    files d' !! Join "/" fullPath = Some content /\
    (forall q, q <> Join "/" fullPath -> files d' !! q = files d !! q) /\
    dirs d ⊆ dirs d' /\
    Clean (Join "/" fullPath) = Some fullPath /\
    (forall granted' other content',
        Clean other = Some fullPath ->
        WriteFile granted' other content' d = WriteFile granted' path content' d) /\
    (forall granted' other content' d'',
        Clean other = Some fullPath ->
        WriteFile granted' other content' d' = Done d'' ->
        WriteFile granted' path content' d = Done d'') /\
    (forall granted1 granted2 other content' d1 d2 d2',
        Clean other <> Some fullPath ->
        WriteFile granted1 other content' d' = Done d2 ->
        WriteFile granted1 other content' d = Done d1 ->
        WriteFile granted2 path content d1 = Done d2' ->
        d2' = d2).
Proof.
  intros Hdone. pose proof Hdone as Hdone'.
  apply written_Done in Hdone as (fullPath & Hclean & -> & Hne & Hfree & Hnodir & ->).
  exists fullPath. cbn [files dirs].
  split; [exact Hclean|]. split; [exact Hne|].
  split; [apply lookup_insert_eq|].
  split; [intros q Hq; apply lookup_insert_ne; congruence|].
  split; [apply union_subseteq_l|].
  split; [exact (Clean_Join _ _ Hclean)|].
  split; [|split].
  - intros granted' other content' Hother. unfold WriteFile. rewrite Hother, Hclean. reflexivity.
  - intros granted' other content' d'' Hother Hlater.
    apply written_Done in Hlater as (fullPath' & Hclean' & -> & _ & _ & Hnodir' & ->).
    rewrite Hother in Hclean'. injection Hclean' as <-. cbn [files dirs].
    apply written_Done. exists fullPath.
    split; [exact Hclean|]. split; [reflexivity|]. split; [exact Hne|].
    split; [exact Hfree|]. split; [exact Hnodir|].
    f_equal; [apply insert_insert_eq|].
    rewrite <- (assoc_L (∪)), (idemp_L (∪)). reflexivity.
  - intros granted1 granted2 other content' d1 d2 d2' Hdiff H2 H1 H2'.
    apply written_Done in H2 as (fq & Hq & -> & Hqne & _ & _ & ->).
    apply written_Done in H1 as (fq' & Hq' & _ & _ & _ & _ & ->).
    rewrite Hq in Hq'. injection Hq' as <-.
    apply written_Done in H2' as (fp & Hp & -> & _ & _ & _ & ->).
    rewrite Hclean in Hp. injection Hp as <-. cbn [files dirs].
    assert (Hnames : Join "/" fq <> Join "/" fullPath).
    { intros Heq. apply Hdiff. rewrite Hq. f_equal.
      exact (Clean_Join_inj _ _ _ _ Hq Hclean Hqne Hne Heq). }
    f_equal; [apply insert_insert_ne; congruence|].
    rewrite <- !(assoc_L (∪)). f_equal. apply (comm_L (∪)).
Qed.

(** The two spellings of one file, written one after the other on a
    machine that grants both calls: one file, with the later content. *)
Lemma WriteFile_laws_witness :
  exists d d',
    WriteFile true "main.py" "print('hello')" emptyDir = Done d /\
    WriteFile true "./main.py" "print('bye')" d = Done d' /\
    WriteFile true "main.py" "print('bye')" emptyDir = Done d'.
Proof.
  assert (Hfirst : WriteFile true "main.py" "print('hello')" emptyDir
                   = Done {| files := {[ "main.py" := "print('hello')" ]}; dirs := ∅ |})
    by (vm_compute; reflexivity).
  assert (Hlater : WriteFile true "./main.py" "print('bye')"
                     {| files := {[ "main.py" := "print('hello')" ]}; dirs := ∅ |}
                   = Done {| files := {[ "main.py" := "print('bye')" ]}; dirs := ∅ |})
    by (vm_compute; reflexivity).
  eexists; eexists. split; [exact Hfirst|]. split; [exact Hlater|].
  destruct (WriteFile_laws true "main.py" "print('hello')" emptyDir _ Hfirst)
    as (fullPath & Hclean & _ & _ & _ & _ & _ & _ & Hlast & _).
  apply (Hlast true "./main.py" "print('bye')" _); [|exact Hlater].
  rewrite <- Hclean. vm_compute. reflexivity.
Defined.

(** ** The directories the helpers make *)

Lemma removelast_snoc {A} (l : list A) :
  l <> [] -> exists init x, l = init ++ [x] /\ removelast l = init.
Proof.
  intros Hne. destruct (exists_last Hne) as (init & x & ->).
  exists init, x. split; [reflexivity|]. apply removelast_last.
Qed.

(** X12.  When [WriteFile] or [WriteBinaryFile] returns, the directory
    of the file, taken from the cleaned path, exists with the
    directories above it, none of which was a regular file, and no
    other directory was made; for a file at the top of the repository
    ([./main.py], [a/../b.txt]) no directory is made at all.  When a
    directory on the way to the file is a regular file, the helper does
    not return: [os.MkdirAll] fails and the test stops. *)
Theorem WriteFile_makes_parent_directory
    (granted : bool) (path content : string) (size : nat) (d : Dir) :
  (forall d',
      WriteFile granted path content d = Done d' \/
      WriteBinaryFile granted path size d = Done d' ->
      exists dir file,
        Clean path = Some (dir ++ [file]) /\
        dirs d' = dirs d ∪ list_to_set (dirPrefixes "" dir) /\
        (dir <> [] -> Join "/" dir ∈ dirs d') /\
        (dir = [] -> dirs d' = dirs d) /\
        (forall p, p ∈ dirPrefixes "" dir -> files d !! p = None)) /\
  (forall fullPath p,
      Clean path = Some fullPath ->
      p ∈ dirPrefixes "" (removelast fullPath) -> is_Some (files d !! p) ->
      WriteFile granted path content d = Aborted /\
      WriteBinaryFile granted path size d = Aborted).
Proof.
  split.
  - intros d' Hdone.
    assert (Hex : exists c, WriteFile granted path c d = Done d').
    { destruct Hdone as [H|H]; [exists content; exact H|].
      exists (binaryContent size). rewrite <- WriteBinaryFile_WriteFile. exact H. }
    destruct Hex as (c & H).
    apply written_Done in H as (fullPath & Hclean & _ & Hne & Hfree & _ & ->).
    destruct (removelast_snoc fullPath Hne) as (dir & file & -> & Hdir).
    rewrite Hdir in *. exists dir, file. cbn [dirs].
    split; [exact Hclean|]. split; [reflexivity|].
    split; [|split; [|exact Hfree]].
    + intros Hdirne. apply elem_of_union_r, elem_of_list_to_set.
      destruct (Clean_elems _ _ Hclean) as (Hnonempty & _).
      apply Forall_app in Hnonempty as [Hnonempty _].
      exact (dirPrefixes_whole dir "" Hdirne Hnonempty).
    + intros ->. cbn [dirPrefixes list_to_set]. apply (right_id_L ∅ (∪)).
  - intros fullPath p Hclean Hin [c Hfile].
    assert (Hmk : MkdirAll (removelast fullPath) d = None).
    { destruct (MkdirAll (removelast fullPath) d) as [d1|] eqn:Hmk; [|reflexivity].
      apply MkdirAll_Some in Hmk as [Hfree _]. rewrite (Hfree p Hin) in Hfile. discriminate. }
    unfold WriteBinaryFile, WriteFile. rewrite Hclean, Hmk.
    destruct granted; split; reflexivity.
Qed.

(** A file below two new directories, and a file that a regular file
    stands in the way of. *)
Lemma WriteFile_makes_parent_directory_witness :
  (exists d', WriteFile true "src/pkg/main.go" "package main" emptyDir = Done d' /\
              "src/pkg" ∈ dirs d') /\
  WriteFile true "main.py/notes.txt" "notes"
    {| files := {[ "main.py" := "print('hello')" ]}; dirs := ∅ |} = Aborted.
Proof.
  split.
  - assert (Hdone : WriteFile true "src/pkg/main.go" "package main" emptyDir
                    = Done {| files := {[ "src/pkg/main.go" := "package main" ]};
                              dirs := {[ "src"; "src/pkg" ]} |})
      by (vm_compute; reflexivity).
    eexists. split; [exact Hdone|].
    destruct (proj1 (WriteFile_makes_parent_directory true "src/pkg/main.go" "package main" 0
                       emptyDir) _ (or_introl Hdone))
      as (dir & file & Hclean & _ & Hmade & _).
    assert (Hdir : dir = ["src"; "pkg"]).
    { assert (H : Clean "src/pkg/main.go" = Some (["src"; "pkg"] ++ ["main.go"]))
        by (vm_compute; reflexivity).
      rewrite H in Hclean. injection Hclean as Hclean.
      change ["src"; "pkg"; "main.go"] with (["src"; "pkg"] ++ ["main.go"]) in Hclean.
      apply app_inj_tail in Hclean as [<- _]. reflexivity. }
    subst dir. apply Hmade. discriminate.
  - apply (proj2 (WriteFile_makes_parent_directory true "main.py/notes.txt" "notes" 0
                    {| files := {[ "main.py" := "print('hello')" ]}; dirs := ∅ |})
             ["main.py"; "notes.txt"] "main.py").
    + vm_compute. reflexivity.
    + vm_compute. apply list_elem_of_here.
    + vm_compute. eauto.
Defined.

(** X13.  When [CreateDir] returns, the directory named by the cleaned
    path exists with the directories above it, none of which was a
    regular file; what was there is kept, no file is made or changed,
    and creating the directory again changes nothing.  When the path or
    a directory on the way to it is a regular file, [CreateDir] does not
    return: [os.MkdirAll] fails and the test stops. *)
Theorem CreateDir_makes_directory_only (granted : bool) (path : string) (d : Dir) :
  (forall d',
      CreateDir granted path d = Done d' ->
      exists fullPath,
        Clean path = Some fullPath /\
        files d' = files d /\
        dirs d' = dirs d ∪ list_to_set (dirPrefixes "" fullPath) /\
        (fullPath <> [] -> Join "/" fullPath ∈ dirs d') /\
        (forall p, p ∈ dirPrefixes "" fullPath -> files d !! p = None) /\
        CreateDir granted path d' = Done d') /\
  (forall fullPath p,
      Clean path = Some fullPath ->
      p ∈ dirPrefixes "" fullPath -> is_Some (files d !! p) ->
      CreateDir granted path d = Aborted).
Proof.
  split.
  - intros d'. unfold CreateDir.
    destruct (Clean path) as [fullPath|] eqn:Hclean; [|discriminate].
    destruct granted; [|discriminate]. cbn [negb].
    destruct (MkdirAll fullPath d) as [d1|] eqn:Hmk; [|discriminate].
    intros [= <-]. apply MkdirAll_Some in Hmk as [Hfree ->].
    exists fullPath. cbn [files dirs].
    split; [reflexivity|]. split; [reflexivity|]. split; [reflexivity|].
    split; [|split; [exact Hfree|]].
    + intros Hne. apply elem_of_union_r, elem_of_list_to_set.
      destruct (Clean_elems _ _ Hclean) as (Hnonempty & _).
      exact (dirPrefixes_whole fullPath "" Hne Hnonempty).
    + assert (Hagain : MkdirAll fullPath
                         {| files := files d;
                            dirs := dirs d ∪ list_to_set (dirPrefixes "" fullPath) |}
                       = Some {| files := files d;
                                 dirs := dirs d ∪ list_to_set (dirPrefixes "" fullPath) |}).
      { apply MkdirAll_Some. cbn [files dirs]. split; [exact Hfree|].
        f_equal. rewrite <- (assoc_L (∪)), (idemp_L (∪)). reflexivity. }
      rewrite Hagain. reflexivity.
  - intros fullPath p Hclean Hin [c Hfile]. unfold CreateDir. rewrite Hclean.
    destruct granted; [|reflexivity]. cbn [negb].
    destruct (MkdirAll fullPath d) as [d1|] eqn:Hmk; [|reflexivity].
    apply MkdirAll_Some in Hmk as [Hfree _]. rewrite (Hfree p Hin) in Hfile. discriminate.
Qed.

(** The nested directory of TestEmptyDirectoryHandling, and a directory
    whose name is taken by a regular file. *)
Lemma CreateDir_makes_directory_only_witness :
  (exists d', CreateDir true "empty2/nested" emptyDir = Done d' /\ "empty2/nested" ∈ dirs d') /\
  CreateDir true "main.py"
    {| files := {[ "main.py" := "print('hello')" ]}; dirs := ∅ |} = Aborted.
Proof.
  split.
  - assert (Hdone : CreateDir true "empty2/nested" emptyDir
                    = Done {| files := ∅; dirs := {[ "empty2"; "empty2/nested" ]} |})
      by (vm_compute; reflexivity).
    eexists. split; [exact Hdone|].
    destruct (proj1 (CreateDir_makes_directory_only true "empty2/nested" emptyDir) _ Hdone)
      as (fullPath & Hclean & _ & _ & Hmade & _).
    assert (H : Clean "empty2/nested" = Some ["empty2"; "nested"]) by (vm_compute; reflexivity).
    rewrite H in Hclean. injection Hclean as <-. apply Hmade. discriminate.
  - apply (proj2 (CreateDir_makes_directory_only true "main.py"
                    {| files := {[ "main.py" := "print('hello')" ]}; dirs := ∅ |})
             ["main.py"] "main.py").
    + vm_compute. reflexivity.
    + vm_compute. apply list_elem_of_here.
    + vm_compute. eauto.
Defined.

(** ** The shared Dagger client *)

Lemma initializeDaggerOnce_done Connect Initialize (g : Globals) :
  daggerOnce (initializeDaggerOnce Connect Initialize g).2 = true.
Proof.
  unfold initializeDaggerOnce. cbn [snd].
  destruct (daggerOnce g) eqn:Hdone; [exact Hdone | reflexivity].
Qed.

Lemma initializeDaggerOnce_after_done Connect Initialize (g : Globals) :
  daggerOnce g = true ->
  initializeDaggerOnce Connect Initialize g =
  (match daggerErr g with
   | Some err => Some ("Skipping test - Dagger not available: " +:+ err)
   | None => None
   end, g).
Proof. intros Hdone. unfold initializeDaggerOnce. rewrite Hdone. reflexivity. Qed.

(** X14.  The first call of [initializeDaggerOnce] decides for the whole test
    run: every later call skips or goes on as the first did, with the
    same message, and changes no variable, whatever [dagger.Connect]
    and [Initialize] would do by then.  A failed connection is not
    tried again. *)
Theorem initializeDaggerOnce_first_call_decides
    Connect Initialize Connect' Initialize' (g : Globals) :
  initializeDaggerOnce Connect' Initialize' (initializeDaggerOnce Connect Initialize g).2
  = initializeDaggerOnce Connect Initialize g.
Proof.
  rewrite (initializeDaggerOnce_after_done Connect' Initialize' _
             (initializeDaggerOnce_done Connect Initialize g)).
  unfold initializeDaggerOnce. reflexivity.
Qed.

(** X15.  From a fresh test binary, a test is skipped exactly when
    [dagger.Connect] or [Initialize] fails, and the message carries that
    error.  A client whose initialization failed is closed and not
    kept; a client that was initialized is kept and not closed. *)
Theorem initializeDaggerOnce_skips_iff_unavailable Connect Initialize :
  let out := initializeDaggerOnce Connect Initialize noDagger in
  (out.1 <> None <->
     (exists err, Connect = inl err) \/
     (exists client err, Connect = inr client /\ (Initialize client None).2 = Some err)) /\
  (forall err, Connect = inl err ->
     out.1 = Some ("Skipping test - Dagger not available: " +:+ err) /\
     testDaggerClient out.2 = None /\ closedClients out.2 = [] /\ dag out.2 = None) /\
  (forall client err, Connect = inr client -> (Initialize client None).2 = Some err ->
     out.1 = Some ("Skipping test - Dagger not available: " +:+ err) /\
     testDaggerClient out.2 = None /\ closedClients out.2 = [client]) /\
  (forall client, Connect = inr client -> (Initialize client None).2 = None ->
     out.1 = None /\ testDaggerClient out.2 = Some client /\ closedClients out.2 = [] /\
     dag out.2 = (Initialize client None).1).
Proof.
  unfold initializeDaggerOnce, noDagger. cbn [daggerOnce dag].
  destruct Connect as [e|c].
  - cbn. split; [|split; [|split]].
    + split; [intros _; left; eexists; reflexivity | intros _; discriminate].
    + intros err [= <-]. repeat split.
    + intros client err [=].
    + intros client [=].
  - destruct (Initialize c None) as [dag' [e|]] eqn:HI; cbn.
    + split; [|split; [|split]].
      * split; [|intros _; discriminate].
        intros _. right. exists c, e. rewrite HI. split; reflexivity.
      * intros err [=].
      * intros client err [= <-]. rewrite HI. cbn. intros [= <-]. repeat split.
      * intros client [= <-]. rewrite HI. cbn. discriminate.
    + split; [|split; [|split]].
      * split; [intros H; contradiction|].
        intros [[err [=]]|[client [err [[= <-] H]]]]. rewrite HI in H. discriminate.
      * intros err [=].
      * intros client err [= <-]. rewrite HI. cbn. discriminate.
      * intros client [= <-]. rewrite HI. cbn. intros _. repeat split.
Qed.

(** X16.  When the package already has a client, [initializeDaggerOnce]
    connects to nothing: no variable but the [sync.Once] changes and no
    client is closed. *)
Theorem initializeDaggerOnce_keeps_existing_client Connect Initialize (g : Globals) :
  dag g <> None ->
  let out := initializeDaggerOnce Connect Initialize g in
  dag out.2 = dag g /\ testDaggerClient out.2 = testDaggerClient g /\
  daggerErr out.2 = daggerErr g /\ closedClients out.2 = closedClients g.
Proof.
  intros Hdag. cbv zeta. unfold initializeDaggerOnce. cbn [snd].
  destruct (daggerOnce g); [repeat split|].
  destruct (dag g) as [c|] eqn:Hc; [|contradiction].
  cbn. repeat split. exact Hc.
Qed.

Lemma initializeDaggerOnce_keeps_existing_client_witness :
  let g := {| dag := Some 7%nat; testDaggerClient := None; daggerOnce := false;
              daggerErr := None; closedClients := [] |} in
  let out := initializeDaggerOnce (inl "connection refused") (fun c d => (Some c, None)) g in
  dag out.2 = Some 7%nat /\ testDaggerClient out.2 = None /\
  daggerErr out.2 = None /\ closedClients out.2 = [].
Proof.
  intros g.
  apply (initializeDaggerOnce_keeps_existing_client
           (inl "connection refused") (fun c d => (Some c, None)) g).
  discriminate.
Defined.

End TestHelperProperties.
